(** * NAC accounting: ledgers, vouchers, reports and the Tally export

    A shallow embedding of the accounting core of [src/index.tsx]: the two
    stores held in [AppData], the state updates of [AccountingApp], the
    voucher form handler, the trial balance and profit-and-loss figures of
    [ReportView], and the text produced by [exportToTally]; then the figures
    of [DashboardView], the day book, the ledger form, the item list of
    [InvoiceView], and the decisions of the backup, restore and licence
    handlers.

    Numeric model.  The amounts of the program are JavaScript numbers; here
    they are integers ([Z]), on which [+], [-], unary minus, [Math.abs] and
    the comparisons with [0] are exact.  [formatCurrency] is kept symbolic
    (constructor [Currency]).  State updates [setData (prev => ...)] are
    functions from the previous [AppData] to the next one. *)

From Stdlib Require Import ZArith List String Ascii Bool Lia DecimalString.
From Stdlib Require Import Permutation.
Import ListNotations.

Open Scope string_scope.
Open Scope Z_scope.

(** ** Types and interfaces *)

Inductive LedgerGroup : Type :=
| Asset | Liability | Income | Expense | Bank | Cash | SundryDebtor | SundryCreditor.

Inductive VoucherType : Type :=
| Sales | Purchase | Receipt | Payment | Journal | Contra.

Module Ledger.
Record t : Type := mk {
  id : string;
  name : string;
  group : LedgerGroup;
  gstNumber : option string;
  openingBalance : Z;
  contact : option string
}.
End Ledger.

Module Voucher.
Record t : Type := mk {
  id : string;
  date : string;
  type : VoucherType;
  ledgerId : string;
  amount : Z;
  narration : string;
  invoiceNumber : option string
}.
End Voucher.

Record AppData : Type := mkAppData {
  ledgers : list Ledger.t;
  vouchers : list Voucher.t;
  companyName : string;
  companyAddress : string;
  companyGst : string;
  companyPhone : string;
  companyEmail : string
}.

(** The text of the two closed unions, as it is interpolated in the output. *)
Definition groupText (g : LedgerGroup) : string :=
  match g with
  | Asset => "Asset" | Liability => "Liability" | Income => "Income"
  | Expense => "Expense" | Bank => "Bank" | Cash => "Cash"
  | SundryDebtor => "Sundry Debtor" | SundryCreditor => "Sundry Creditor"
  end.

Definition typeText (t : VoucherType) : string :=
  match t with
  | Sales => "Sales" | Purchase => "Purchase" | Receipt => "Receipt"
  | Payment => "Payment" | Journal => "Journal" | Contra => "Contra"
  end.

Definition VoucherType_eqb (a b : VoucherType) : bool :=
  match a, b with
  | Sales, Sales | Purchase, Purchase | Receipt, Receipt
  | Payment, Payment | Journal, Journal | Contra, Contra => true
  | _, _ => false
  end.

Definition LedgerGroup_eqb (a b : LedgerGroup) : bool :=
  match a, b with
  | Asset, Asset | Liability, Liability | Income, Income | Expense, Expense
  | Bank, Bank | Cash, Cash | SundryDebtor, SundryDebtor
  | SundryCreditor, SundryCreditor => true
  | _, _ => false
  end.

(** [xs.includes(x)] on an array literal of voucher types / ledger groups. *)
Definition includes (xs : list VoucherType) (x : VoucherType) : bool :=
  existsb (VoucherType_eqb x) xs.

Definition includesGroup (xs : list LedgerGroup) (x : LedgerGroup) : bool :=
  existsb (LedgerGroup_eqb x) xs.

(** ** Initial state *)

Definition INITIAL_DATA : AppData := {|
  ledgers := [
    Ledger.mk "1" "Cash Account" Cash None 50000 None;
    Ledger.mk "2" "HDFC Bank" Bank None 150000 None;
    Ledger.mk "3" "Sales Account" Income None 0 None;
    Ledger.mk "4" "Purchase Account" Expense None 0 None;
    Ledger.mk "5" "Ramesh Traders" SundryDebtor (Some "27ABCDE1234F1Z5") 0 None;
    Ledger.mk "6" "Tech Solutions Ltd" SundryCreditor (Some "27XYZAB5678L1Z2") 0 None;
    Ledger.mk "7" "Office Rent" Expense None 0 None;
    Ledger.mk "8" "Electricity Bill" Expense None 0 None ];
  vouchers := [
    Voucher.mk "V001" "2024-04-01" Receipt "1" 50000 "Capital Introduction" None;
    Voucher.mk "V002" "2024-04-02" Purchase "6" 25000 "Purchased computer parts" (Some "INV-99");
    Voucher.mk "V003" "2024-04-05" Sales "5" 45000 "Sold 5 Laptops" (Some "NAC-001");
    Voucher.mk "V004" "2024-04-06" Payment "7" 12000 "Office Rent Paid via Cash" None ];
  companyName := "New Age Computers";
  companyAddress := "Shop 12, Digital Plaza, Mumbai, 400001";
  companyGst := "27AACCN1234P1Z5";
  companyPhone := "9920524542";
  companyEmail := "support@newagecomputers.com"
|}.

(** ** Actions *)

Definition setLedgers (ls : list Ledger.t) (prev : AppData) : AppData :=
  {| ledgers := ls; vouchers := vouchers prev;
     companyName := companyName prev; companyAddress := companyAddress prev;
     companyGst := companyGst prev; companyPhone := companyPhone prev;
     companyEmail := companyEmail prev |}.

Definition setVouchers (vs : list Voucher.t) (prev : AppData) : AppData :=
  {| ledgers := ledgers prev; vouchers := vs;
     companyName := companyName prev; companyAddress := companyAddress prev;
     companyGst := companyGst prev; companyPhone := companyPhone prev;
     companyEmail := companyEmail prev |}.

(** [{ ...prev, ledgers: [...prev.ledgers, ledger] }] *)
Definition addLedger (ledger : Ledger.t) (prev : AppData) : AppData :=
  setLedgers (ledgers prev ++ [ledger]) prev.

(** [{ ...prev, ledgers: prev.ledgers.filter(l => l.id !== id) }] *)
Definition deleteLedger (id : string) (prev : AppData) : AppData :=
  setLedgers (filter (fun l => negb (Ledger.id l =? id)%string) (ledgers prev)) prev.

(** [{ ...prev, vouchers: [...prev.vouchers, voucher] }] *)
Definition addVoucher (voucher : Voucher.t) (prev : AppData) : AppData :=
  setVouchers (vouchers prev ++ [voucher]) prev.

(** [{ ...prev, vouchers: prev.vouchers.filter(v => v.id !== id) }] *)
Definition deleteVoucher (id : string) (prev : AppData) : AppData :=
  setVouchers (filter (fun v => negb (Voucher.id v =? id)%string) (vouchers prev)) prev.

(** ** The voucher entry form *)

(** A string used as a condition is true exactly when it is not empty. *)
Definition truthy (s : string) : bool := negb (s =? "")%string.

(** The local state of [VoucherView]; [amount] is the text of the input. *)
Record VoucherForm : Type := mkVoucherForm {
  f_type : VoucherType;
  f_ledgerId : string;
  f_amount : string;
  f_narration : string;
  f_date : string;
  f_invoiceNo : string
}.

Section HandleSave.

(** The host's conversion of the input text to a number, and the identifier
    drawn by [generateId ()] for this submission. *)
Variable Number : string -> Z.
Variable generatedId : string.

(** [handleSave]: the form as the state setters of the handler leave it, and
    the update applied to the application data.  Nothing happens unless both
    [ledgerId] and [amount] are non-empty.  (After an update of the data the
    view is mounted anew: see [submitVoucherForm].) *)
Definition handleSave (f : VoucherForm) (data : AppData) : VoucherForm * AppData :=
  if truthy (f_ledgerId f) && truthy (f_amount f) then
    ( {| f_type := f_type f; f_ledgerId := f_ledgerId f; f_amount := "";
         f_narration := ""; f_date := f_date f; f_invoiceNo := "" |},
      addVoucher
        {| Voucher.id := generatedId;
           Voucher.date := f_date f;
           Voucher.type := f_type f;
           Voucher.ledgerId := f_ledgerId f;
           Voucher.amount := Number (f_amount f);
           Voucher.narration := f_narration f;
           Voucher.invoiceNumber := Some (f_invoiceNo f) |}
        data )
  else (f, data).

End HandleSave.

(** [Number] on the texts made of an optional minus sign and decimal digits;
    the value of any other text lies outside the integer model and is not
    used below. *)
Fixpoint digitsValue (acc : Z) (s : string) : option Z :=
  match s with
  | EmptyString => Some acc
  | String c rest =>
      let n := Z.of_nat (nat_of_ascii c) in
      if (48 <=? n) && (n <=? 57) then digitsValue (10 * acc + (n - 48)) rest
      else None
  end.

Definition decimalNumber (s : string) : Z :=
  match s with
  | String "-"%char rest =>
      match digitsValue 0 rest with Some n => - n | None => 0 end
  | _ => match digitsValue 0 s with Some n => n | None => 0 end
  end.

(** ** Tally export *)

Definition nl : string := String (ascii_of_nat 10) EmptyString.
Definition dq : string := String (ascii_of_nat 34) EmptyString.

(** The text a template literal interpolates for an integer number, for the
    integers of a magnitude below 10^21, which are written with all their
    digits. *)
Definition numberText (z : Z) : string := NilZero.string_of_int (Z.to_int z).

(** [s.replace(/-/g, '')] *)
Fixpoint removeHyphens (s : string) : string :=
  match s with
  | EmptyString => EmptyString
  | String c rest =>
      if (c =? "-")%char then removeHyphens rest else String c (removeHyphens rest)
  end.

(** [data.ledgers.find(l => l.id === v.ledgerId)?.name || 'Unknown Ledger'] *)
Definition ledgerName (data : AppData) (v : Voucher.t) : string :=
  match find (fun l => (Ledger.id l =? Voucher.ledgerId v)%string) (ledgers data) with
  | Some l => if truthy (Ledger.name l) then Ledger.name l else "Unknown Ledger"
  | None => "Unknown Ledger"
  end.

Definition dateStr (v : Voucher.t) : string := removeHyphens (Voucher.date v).

(** [v.invoiceNumber || v.id] *)
Definition voucherNumber (v : Voucher.t) : string :=
  match Voucher.invoiceNumber v with
  | Some s => if truthy s then s else Voucher.id v
  | None => Voucher.id v
  end.

(** The three values written inside one [ALLLEDGERENTRIES.LIST] element. *)
Record LedgerEntry : Type := mkLedgerEntry {
  LEDGERNAME : string;
  ISDEEMEDPOSITIVE : string;
  AMOUNT : Z
}.

(** Main ledger entry (party). *)
Definition partyEntry (data : AppData) (v : Voucher.t) : LedgerEntry :=
  {| LEDGERNAME := ledgerName data v;
     ISDEEMEDPOSITIVE :=
       if includes [Sales; Payment] (Voucher.type v) then "No" else "Yes";
     AMOUNT :=
       if includes [Sales; Payment] (Voucher.type v)
       then Voucher.amount v else - Voucher.amount v |}.

Definition contraLedger (v : Voucher.t) : string :=
  let contra := "Cash Account" in
  let contra :=
    if VoucherType_eqb (Voucher.type v) Sales then "Sales Account" else contra in
  let contra :=
    if VoucherType_eqb (Voucher.type v) Purchase then "Purchase Account" else contra in
  contra.

(** Contra ledger entry (Cash/Bank/Sales/Purchase account). *)
Definition contraEntry (v : Voucher.t) : LedgerEntry :=
  {| LEDGERNAME := contraLedger v;
     ISDEEMEDPOSITIVE :=
       if includes [Sales; Payment] (Voucher.type v) then "Yes" else "No";
     AMOUNT :=
       if includes [Sales; Payment] (Voucher.type v)
       then - Voucher.amount v else Voucher.amount v |}.

Definition entryText (e : LedgerEntry) : string :=
  "      <ALLLEDGERENTRIES.LIST>" ++ nl ++
  "       <LEDGERNAME>" ++ LEDGERNAME e ++ "</LEDGERNAME>" ++ nl ++
  "       <ISDEEMEDPOSITIVE>" ++ ISDEEMEDPOSITIVE e ++ "</ISDEEMEDPOSITIVE>" ++ nl ++
  "       <AMOUNT>" ++ numberText (AMOUNT e) ++ "</AMOUNT>" ++ nl ++
  "      </ALLLEDGERENTRIES.LIST>" ++ nl.

(** Everything one iteration of the [forEach] appends to [xml]. *)
Definition voucherText (data : AppData) (v : Voucher.t) : string :=
  "     <VOUCHER VCHTYPE=" ++ dq ++ typeText (Voucher.type v) ++ dq ++
    " ACTION=" ++ dq ++ "Create" ++ dq ++ ">" ++ nl ++
  "      <DATE>" ++ dateStr v ++ "</DATE>" ++ nl ++
  "      <NARRATION>" ++ Voucher.narration v ++ "</NARRATION>" ++ nl ++
  "      <VOUCHERNUMBER>" ++ voucherNumber v ++ "</VOUCHERNUMBER>" ++ nl ++
  "      <PARTYLEDGERNAME>" ++ ledgerName data v ++ "</PARTYLEDGERNAME>" ++ nl ++
  entryText (partyEntry data v) ++
  entryText (contraEntry v) ++
  "     </VOUCHER>" ++ nl.

Definition xmlHeader : string :=
  "<ENVELOPE>" ++ nl ++ " <HEADER>" ++ nl ++
  "  <TALLYREQUEST>Import Data</TALLYREQUEST>" ++ nl ++ " </HEADER>" ++ nl ++
  " <BODY>" ++ nl ++ "  <IMPORTDATA>" ++ nl ++ "   <REQUESTDESC>" ++ nl ++
  "    <REPORTNAME>Vouchers</REPORTNAME>" ++ nl ++ "   </REQUESTDESC>" ++ nl ++
  "   <REQUESTDATA>" ++ nl ++
  "    <TALLYMESSAGE xmlns:UDF=" ++ dq ++ "TallyUDF" ++ dq ++ ">" ++ nl.

Definition xmlFooter : string :=
  "    </TALLYMESSAGE>" ++ nl ++ "   </REQUESTDATA>" ++ nl ++
  "  </IMPORTDATA>" ++ nl ++ " </BODY>" ++ nl ++ "</ENVELOPE>".

(** [exportToTally]: the document handed to the download.  [xml] starts as
    the header, every voucher of the journal appends its text in turn, and
    the footer closes the document. *)
Definition exportToTally (data : AppData) : string :=
  let xml := xmlHeader in
  let xml := fold_left (fun xml v => xml ++ voucherText data v) (vouchers data) xml in
  xml ++ xmlFooter.

(** The pieces appended by the loop, one per voucher, in journal order, and
    the text obtained by writing a list of pieces one after the other. *)
Definition voucherBlocks (data : AppData) : list string :=
  map (voucherText data) (vouchers data).

Definition concatAll (pieces : list string) : string :=
  fold_right append EmptyString pieces.

(** Reading the document back: the number of positions of a text at which a
    given tag starts, and the texts that contain no opening angle bracket. *)
Fixpoint startsWith (tag s : string) : bool :=
  match tag, s with
  | EmptyString, _ => true
  | String _ _, EmptyString => false
  | String a tag', String b s' => (a =? b)%char && startsWith tag' s'
  end.

Fixpoint occurrences (tag s : string) : nat :=
  match s with
  | EmptyString => 0%nat
  | String _ rest => ((if startsWith tag s then 1 else 0) + occurrences tag rest)%nat
  end.

Fixpoint plainText (s : string) : bool :=
  match s with
  | EmptyString => true
  | String c rest => negb (c =? "<")%char && plainText rest
  end.

Definition plainFields (data : AppData) (v : Voucher.t) : bool :=
  plainText (Voucher.date v) && plainText (Voucher.narration v) &&
  plainText (voucherNumber v) && plainText (ledgerName data v).

(** ** Reports *)

(** [vs.reduce((s, v) => s + v.amount, 0)] *)
Definition sumAmounts (vs : list Voucher.t) : Z :=
  fold_left (fun s v => s + Voucher.amount v) vs 0.

Definition debits (l : Ledger.t) (vs : list Voucher.t) : Z :=
  sumAmounts
    (filter (fun v => (Voucher.ledgerId v =? Ledger.id l)%string
                      && includes [Sales; Receipt] (Voucher.type v)) vs).

Definition credits (l : Ledger.t) (vs : list Voucher.t) : Z :=
  sumAmounts
    (filter (fun v => (Voucher.ledgerId v =? Ledger.id l)%string
                      && includes [Purchase; Payment] (Voucher.type v)) vs).

Definition net (l : Ledger.t) (vs : list Voucher.t) : Z :=
  Ledger.openingBalance l + debits l vs - credits l vs.

Definition isCreditNature (l : Ledger.t) : bool :=
  includesGroup [Liability; Income; SundryCreditor] (Ledger.group l).

(** A money cell of the table: ['-'] or [formatCurrency (z)]. *)
Inductive Cell : Type :=
| Dash
| Currency (z : Z).

(** One [<tr>] of the trial balance. *)
Record Row : Type := mkRow {
  key : string;
  particulars : string;
  groupLabel : string;
  debitCell : Cell;
  creditCell : Cell
}.

(** The callback of [data.ledgers.map]: [None] is the [null] returned for a
    ledger whose [net] is [0]. *)
Definition trialBalanceRow (vs : list Voucher.t) (l : Ledger.t) : option Row :=
  let net := net l vs in
  let isCreditNature := isCreditNature l in
  if net =? 0 then None
  else Some {| key := Ledger.id l;
               particulars := Ledger.name l;
               groupLabel := groupText (Ledger.group l);
               debitCell := if net >? 0 then Currency net else Dash;
               creditCell := if net <? 0 then Currency (Z.abs net) else Dash |}.

(** The rows that reach the table body: a [null] child renders nothing. *)
Fixpoint renderRows (cells : list (option Row)) : list Row :=
  match cells with
  | [] => []
  | None :: rest => renderRows rest
  | Some r :: rest => r :: renderRows rest
  end.

Definition trialBalance (data : AppData) : list Row :=
  renderRows (map (trialBalanceRow (vouchers data)) (ledgers data)).

(** The four figures of the profit and loss panel. *)
Definition totalSalesRevenue (vs : list Voucher.t) : Z :=
  sumAmounts (filter (fun v => VoucherType_eqb (Voucher.type v) Sales) vs).

Definition totalPurchaseCost (vs : list Voucher.t) : Z :=
  sumAmounts (filter (fun v => VoucherType_eqb (Voucher.type v) Purchase) vs).

Definition directExpenses (vs : list Voucher.t) : Z :=
  sumAmounts (filter (fun v => VoucherType_eqb (Voucher.type v) Payment) vs).

Definition netProfit (vs : list Voucher.t) : Z := 10000.

Record ProfitAndLoss : Type := mkProfitAndLoss {
  pl_revenue : Z;
  pl_costOfGoods : Z;
  pl_directExpenses : Z;
  pl_netProfit : Z
}.

Definition computeProfitAndLoss (vs : list Voucher.t) : ProfitAndLoss :=
  {| pl_revenue := totalSalesRevenue vs;
     pl_costOfGoods := totalPurchaseCost vs;
     pl_directExpenses := directExpenses vs;
     pl_netProfit := netProfit vs |}.

(** ** The derivations as the specification words them

    These definitions follow the wording of the specification, not the code;
    the theorems below compare them with the definitions above. *)

(** "isPartyDebit = type in {Sales, Payment}" *)
Definition isPartyDebit (v : Voucher.t) : bool :=
  match Voucher.type v with
  | Sales | Payment => true
  | Purchase | Receipt | Journal | Contra => false
  end.

(** "debitTotal += amount for vouchers of type Sales or Receipt", over the
    vouchers whose [ledgerId] equals the ledger's id. *)
Fixpoint debitTotal (l : Ledger.t) (vs : list Voucher.t) : Z :=
  match vs with
  | [] => 0
  | v :: rest =>
      if (Voucher.ledgerId v =? Ledger.id l)%string then
        match Voucher.type v with
        | Sales | Receipt => Voucher.amount v + debitTotal l rest
        | Purchase | Payment | Journal | Contra => debitTotal l rest
        end
      else debitTotal l rest
  end.

(** "creditTotal += amount for vouchers of type Purchase or Payment" *)
Fixpoint creditTotal (l : Ledger.t) (vs : list Voucher.t) : Z :=
  match vs with
  | [] => 0
  | v :: rest =>
      if (Voucher.ledgerId v =? Ledger.id l)%string then
        match Voucher.type v with
        | Purchase | Payment => Voucher.amount v + creditTotal l rest
        | Sales | Receipt | Journal | Contra => creditTotal l rest
        end
      else creditTotal l rest
  end.

(** "net = openingBalance + debitTotal - creditTotal" *)
Definition balanceNet (l : Ledger.t) (vs : list Voucher.t) : Z :=
  Ledger.openingBalance l + debitTotal l vs - creditTotal l vs.

(** The sum of the amounts of the vouchers of one type, whatever the ledger. *)
Fixpoint totalOfType (t : VoucherType) (vs : list Voucher.t) : Z :=
  match vs with
  | [] => 0
  | v :: rest =>
      if VoucherType_eqb (Voucher.type v) t
      then Voucher.amount v + totalOfType t rest
      else totalOfType t rest
  end.

(** "Revenue - CostOfGoods - DirectExpenses" *)
Definition derivedNetProfit (vs : list Voucher.t) : Z :=
  totalOfType Sales vs - totalOfType Purchase vs - totalOfType Payment vs.

(** What one voucher adds to the net of a ledger. *)
Definition contribution (l : Ledger.t) (v : Voucher.t) : Z :=
  if (Voucher.ledgerId v =? Ledger.id l)%string then
    match Voucher.type v with
    | Sales | Receipt => Voucher.amount v
    | Purchase | Payment => - Voucher.amount v
    | Journal | Contra => 0
    end
  else 0.

(** "leg 1 with ... the flag flipped" *)
Definition flipFlag (flag : string) : string :=
  if (flag =? "Yes")%string then "No" else "Yes".

(** The part of a trial-balance row that says which column holds what. *)
Definition columns (r : Row) : string * string * Cell * Cell :=
  (key r, particulars r, debitCell r, creditCell r).

(** A ledger reclassified into another group, everything else kept. *)
Definition withGroup (g : LedgerGroup) (l : Ledger.t) : Ledger.t :=
  {| Ledger.id := Ledger.id l; Ledger.name := Ledger.name l; Ledger.group := g;
     Ledger.gstNumber := Ledger.gstNumber l;
     Ledger.openingBalance := Ledger.openingBalance l;
     Ledger.contact := Ledger.contact l |}.

(** What the row of a ledger shows, given the net of the ledger. *)
Definition rowShows (vs : list Voucher.t) (l : Ledger.t) (r : Row) : Prop :=
  key r = Ledger.id l /\
  particulars r = Ledger.name l /\
  groupLabel r = groupText (Ledger.group l) /\
  (net l vs > 0 -> debitCell r = Currency (net l vs) /\ creditCell r = Dash) /\
  (net l vs < 0 -> creditCell r = Currency (Z.abs (net l vs)) /\ debitCell r = Dash).

(** Sample inputs used in the examples. *)
Definition refundVoucher : Voucher.t :=
  Voucher.mk "V005" "2024-04-07" Payment "7" (-5) "Refund" None.

Definition refundForm : VoucherForm :=
  {| f_type := Payment; f_ledgerId := "7"; f_amount := "-5";
     f_narration := "Refund"; f_date := "2024-04-07"; f_invoiceNo := "" |}.

Definition salesV003 : Voucher.t :=
  Voucher.mk "V003" "2024-04-05" Sales "5" 45000 "Sold 5 Laptops" (Some "NAC-001").

(** * The remaining views and handlers *)

(** ** Company settings *)

(** A [Partial<AppData>]: the fields that are present. *)
Record AppDataPatch : Type := mkAppDataPatch {
  p_ledgers : option (list Ledger.t);
  p_vouchers : option (list Voucher.t);
  p_companyName : option string;
  p_companyAddress : option string;
  p_companyGst : option string;
  p_companyPhone : option string;
  p_companyEmail : option string
}.

Definition orPrev {A : Type} (field : option A) (prev : A) : A :=
  match field with Some x => x | None => prev end.

(** [{ ...prev, ...settings }] *)
Definition updateCompanySettings (settings : AppDataPatch) (prev : AppData) : AppData :=
  {| ledgers := orPrev (p_ledgers settings) (ledgers prev);
     vouchers := orPrev (p_vouchers settings) (vouchers prev);
     companyName := orPrev (p_companyName settings) (companyName prev);
     companyAddress := orPrev (p_companyAddress settings) (companyAddress prev);
     companyGst := orPrev (p_companyGst settings) (companyGst prev);
     companyPhone := orPrev (p_companyPhone settings) (companyPhone prev);
     companyEmail := orPrev (p_companyEmail settings) (companyEmail prev) |}.

(** The three patches sent by the company profile inputs. *)
Definition emptyPatch : AppDataPatch :=
  mkAppDataPatch None None None None None None None.

Definition companyNamePatch (text : string) : AppDataPatch :=
  mkAppDataPatch None None (Some text) None None None None.

Definition companyAddressPatch (text : string) : AppDataPatch :=
  mkAppDataPatch None None None (Some text) None None None.

Definition companyGstPatch (text : string) : AppDataPatch :=
  mkAppDataPatch None None None None (Some text) None None.

(** ** Backup and restore *)

(** The object read back from the backup text written for [data]: every
    field of [data] is present in it. *)
Definition backupJson (data : AppData) : AppDataPatch :=
  {| p_ledgers := Some (ledgers data);
     p_vouchers := Some (vouchers data);
     p_companyName := Some (companyName data);
     p_companyAddress := Some (companyAddress data);
     p_companyGst := Some (companyGst data);
     p_companyPhone := Some (companyPhone data);
     p_companyEmail := Some (companyEmail data) |}.

Definition present {A : Type} (field : option A) : bool :=
  match field with Some _ => true | None => false end.

(** [json.companyName && json.vouchers && json.ledgers]: an array, empty or
    not, counts as true; a text counts as true when it is not empty. *)
Definition simpleValidationCheck (json : AppDataPatch) : bool :=
  match p_companyName json with Some text => truthy text | None => false end
  && present (p_vouchers json) && present (p_ledgers json).

Inductive RestoreOutcome : Type :=
| DataRestored (stored : AppDataPatch)
| RestoreDeclined
| InvalidBackupFile.

(** The decision taken by [handleRestore] once the file has been parsed;
    [confirmed] is the answer given to the warning. *)
Definition handleRestore (json : AppDataPatch) (confirmed : bool) : RestoreOutcome :=
  if simpleValidationCheck json then
    if confirmed then DataRestored json else RestoreDeclined
  else InvalidBackupFile.

(** ** Dashboard *)

Definition totalSales (data : AppData) : Z :=
  sumAmounts (filter (fun v => VoucherType_eqb (Voucher.type v) Sales) (vouchers data)).

Definition totalPurchase (data : AppData) : Z :=
  sumAmounts (filter (fun v => VoucherType_eqb (Voucher.type v) Purchase) (vouchers data)).

Definition totalReceipts (data : AppData) : Z :=
  sumAmounts (filter (fun v => VoucherType_eqb (Voucher.type v) Receipt) (vouchers data)).

Definition totalPayments (data : AppData) : Z :=
  sumAmounts (filter (fun v => VoucherType_eqb (Voucher.type v) Payment) (vouchers data)).

(** [x || 0] on a number. *)
Definition orZero (x : Z) : Z := if x =? 0 then 0 else x.

(** [data.ledgers.find(l => l.group === 'Cash')] *)
Definition cashLedger (data : AppData) : option Ledger.t :=
  find (fun l => LedgerGroup_eqb (Ledger.group l) Cash) (ledgers data).

(** [(cashLedger?.openingBalance || 0) + totalReceipts - totalPayments] *)
Definition cashBalance (data : AppData) : Z :=
  match cashLedger data with
  | Some l => orZero (Ledger.openingBalance l)
  | None => 0
  end + totalReceipts data - totalPayments data.

(** [data.vouchers.slice(-5).reverse()] *)
Definition recentVouchers (data : AppData) : list Voucher.t :=
  rev (skipn (List.length (vouchers data) - 5) (vouchers data)).

(** [data.ledgers.find(l => l.id === v.ledgerId)?.name], the party shown in
    the dashboard and in the day book; [None] is shown as an empty cell. *)
Definition partyName (data : AppData) (v : Voucher.t) : option string :=
  option_map Ledger.name
    (find (fun l => (Ledger.id l =? Voucher.ledgerId v)%string) (ledgers data)).

(** ** Day book *)

(** [data.vouchers.filter(v => v.date === date)] *)
Definition dayBook (date : string) (data : AppData) : list Voucher.t :=
  filter (fun v => (Voucher.date v =? date)%string) (vouchers data).

Definition dayBookTotal (date : string) (data : AppData) : Z :=
  sumAmounts (dayBook date data).

(** ** Ledger creation form *)

(** The [Partial<Ledger>] held by [LedgersView].  The group is set in the
    initial state and in the state after a submission, and no handler removes
    it. *)
Record LedgerForm : Type := mkLedgerForm {
  n_name : option string;
  n_group : LedgerGroup;
  n_gstNumber : option string;
  n_openingBalance : option Z;
  n_contact : option string
}.

(** [{ group: 'Sundry Debtor', openingBalance: 0 }] *)
Definition blankLedgerForm : LedgerForm :=
  {| n_name := None; n_group := SundryDebtor; n_gstNumber := None;
     n_openingBalance := Some 0; n_contact := None |}.

(** [handleSubmit] of [LedgersView]: the modal flag and the form afterwards,
    and the update of the application data; [generatedId] is the identifier
    drawn by [generateId ()]. *)
Definition handleSubmit (generatedId : string) (isModalOpen : bool)
           (newLedger : LedgerForm) (data : AppData) : bool * LedgerForm * AppData :=
  match n_name newLedger with
  | Some text =>
      if truthy text then
        ( false, blankLedgerForm,
          addLedger
            {| Ledger.id := generatedId;
               Ledger.name := text;
               Ledger.group := n_group newLedger;
               Ledger.openingBalance :=
                 match n_openingBalance newLedger with
                 | Some x => orZero x
                 | None => 0
                 end;
               Ledger.gstNumber := n_gstNumber newLedger;
               Ledger.contact := n_contact newLedger |}
            data )
      else (isModalOpen, newLedger, data)
  | None => (isModalOpen, newLedger, data)
  end.

(** ** Invoice *)

Record Item : Type := mkItem {
  desc : string;
  hsn : string;
  qty : Z;
  rate : Z
}.

Record InvoiceData : Type := mkInvoiceData {
  customerName : string;
  customerAddress : string;
  gst : string;
  invoiceNo : string;
  items : list Item;
  i_date : string
}.

Definition setItems (newItems : list Item) (invoiceData : InvoiceData) : InvoiceData :=
  {| customerName := customerName invoiceData;
     customerAddress := customerAddress invoiceData;
     gst := gst invoiceData;
     invoiceNo := invoiceNo invoiceData;
     items := newItems;
     i_date := i_date invoiceData |}.

(** [{ ...invoiceData, items: [...invoiceData.items, { desc: '', hsn: '', qty: 1, rate: 0 }] }] *)
Definition addItem (invoiceData : InvoiceData) : InvoiceData :=
  setItems (items invoiceData ++ [mkItem "" "" 1 0]) invoiceData.

(** [newItems.splice(index, 1)] on a copy of the items, for an index of a
    displayed row. *)
Definition removeItem (index : nat) (invoiceData : InvoiceData) : InvoiceData :=
  setItems (firstn index (items invoiceData) ++ skipn (S index) (items invoiceData))
           invoiceData.

(** [invoiceData.items.reduce((s, i) => s + (i.qty * i.rate), 0)] *)
Definition subtotal (invoiceData : InvoiceData) : Z :=
  fold_left (fun s i => s + qty i * rate i) (items invoiceData) 0.

(** ** Licence keys *)

Module License.
Record t : Type := mk {
  key : string;
  clientName : string;
  activationDate : string;
  expiryDate : string;
  isActive : bool
}.
End License.

(** [s.split(sep)] for a separator of one character. *)
Fixpoint split (sep : ascii) (s : string) : list string :=
  match s with
  | EmptyString => [EmptyString]
  | String c rest =>
      if (c =? sep)%char then EmptyString :: split sep rest
      else match split sep rest with
           | part :: parts => String c part :: parts
           | [] => [String c EmptyString]
           end
  end.

(** [generateKey] of [AdminView]; the date part and the random part come
    from the host. *)
Definition generateKey (duration datePart randomPart : string) : string :=
  "NAC-" ++ duration ++ "-" ++ datePart ++ "-" ++ randomPart.

Inductive ActivationOutcome : Type :=
| Activated (license : License.t)
| Refused (error : string).

Section Activation.

(** The text of the present instant, and of the instants one month and one
    year later, as the host computes them. *)
Variable today : string.
Variable inOneMonth : string.
Variable inOneYear : string.

(** [handleActivate] of [LicenseGate]: the licence stored, or the error shown. *)
Definition handleActivate (licenseKey : string) : ActivationOutcome :=
  if (licenseKey =? "NAC-DEMO-2025-TEST")%string then
    Activated {| License.key := licenseKey;
                 License.clientName := "Demo User (Testing)";
                 License.activationDate := today;
                 License.expiryDate := inOneYear;
                 License.isActive := true |}
  else if negb (startsWith "NAC-" licenseKey) then
    Refused "Invalid License Format. Must start with NAC-"
  else
    let parts := split "-"%char licenseKey in
    let expiry :=
      if existsb (fun part => (part =? "1M")%string) parts
      then inOneMonth else inOneYear in
    Activated {| License.key := licenseKey;
                 License.clientName := "Valued Client";
                 License.activationDate := today;
                 License.expiryDate := expiry;
                 License.isActive := true |}.

End Activation.

(** ** Auxiliary notions used in the statements *)

(** Whether a character occurs in a text. *)
Fixpoint containsChar (c : ascii) (s : string) : bool :=
  match s with
  | EmptyString => false
  | String x rest => (x =? c)%char || containsChar c rest
  end.

(** What one voucher adds to the cash in hand of the dashboard. *)
Definition cashEffect (v : Voucher.t) : Z :=
  match Voucher.type v with
  | Receipt => Voucher.amount v
  | Payment => - Voucher.amount v
  | Sales | Purchase | Journal | Contra => 0
  end.

(** The ledger entered in the creation form, once it has been given an
    identifier. *)
Definition ledgerOfForm (generatedId text : string) (newLedger : LedgerForm) : Ledger.t :=
  {| Ledger.id := generatedId;
     Ledger.name := text;
     Ledger.group := n_group newLedger;
     Ledger.openingBalance :=
       match n_openingBalance newLedger with Some x => orZero x | None => 0 end;
     Ledger.gstNumber := n_gstNumber newLedger;
     Ledger.contact := n_contact newLedger |}.

(** The voucher entered in the voucher form. *)
Definition voucherOfForm (Number : string -> Z) (generatedId : string)
           (f : VoucherForm) : Voucher.t :=
  Voucher.mk generatedId (f_date f) (f_type f) (f_ledgerId f)
             (Number (f_amount f)) (f_narration f) (Some (f_invoiceNo f)).

(** ** The view around the voucher form *)



(** ** The range of exact arithmetic

    The numbers of the program are binary64 values.  On integers, sums,
    differences and products are computed without rounding as long as every
    intermediate result has a magnitude of at most [2^53]; within that range
    the integer model computes what the program computes.  The conditions
    below bound every intermediate result of the reports and of the invoice
    subtotal. *)
Definition exactLimit : Z := 9007199254740992.

Fixpoint magnitude (vs : list Voucher.t) : Z :=
  match vs with
  | [] => 0
  | v :: rest => Z.abs (Voucher.amount v) + magnitude rest
  end.

Definition withinExactRange (data : AppData) : bool :=
  (magnitude (vouchers data) <=? exactLimit) &&
  forallb (fun l => Z.abs (Ledger.openingBalance l) + magnitude (vouchers data)
                    <=? exactLimit)
          (ledgers data).

Fixpoint itemsMagnitude (xs : list Item) : Z :=
  match xs with
  | [] => 0
  | i :: rest => Z.abs (qty i * rate i) + itemsMagnitude rest
  end.

Definition invoiceWithinExactRange (invoiceData : InvoiceData) : bool :=
  itemsMagnitude (items invoiceData) <=? exactLimit.


(** * Properties *)

(** ** Voucher journal *)

Lemma addVoucher_vouchers (v : Voucher.t) (data : AppData) :
  vouchers (addVoucher v data) = (vouchers data ++ [v])%list.
Proof. reflexivity. Qed.

Lemma handleSave_submits (Number : string -> Z) (gid : string)
      (f : VoucherForm) (data : AppData) :
  f_ledgerId f <> "" -> f_amount f <> "" ->
  vouchers (snd (handleSave Number gid f data)) =
  (vouchers data ++
    [Voucher.mk gid (f_date f) (f_type f) (f_ledgerId f) (Number (f_amount f))
                (f_narration f) (Some (f_invoiceNo f))])%list.
Proof.
  intros Hl Ha. unfold handleSave, truthy.
  apply String.eqb_neq in Hl. apply String.eqb_neq in Ha.
  rewrite Hl, Ha. reflexivity.
Qed.

Example handleSave_refund :
  vouchers (snd (handleSave decimalNumber "V005" refundForm INITIAL_DATA)) =
  (vouchers INITIAL_DATA ++
     [Voucher.mk "V005" "2024-04-07" Payment "7" (-5) "Refund" (Some "")])%list.
Proof. reflexivity. Qed.

(** C1 (as stated, refuted): a voucher with the negative amount [-5] is not
    rejected.  Added to the initial journal of four vouchers it becomes the
    fifth entry, so the journal is neither of the same length nor of the same
    contents as before. *)
Lemma addVoucher_negative_accepted :
  Voucher.amount refundVoucher < 0 /\
  vouchers (addVoucher refundVoucher INITIAL_DATA) =
    (vouchers INITIAL_DATA ++ [refundVoucher])%list /\
  List.length (vouchers INITIAL_DATA) = 4%nat /\
  List.length (vouchers (addVoucher refundVoucher INITIAL_DATA)) = 5%nat /\
  vouchers (addVoucher refundVoucher INITIAL_DATA) <> vouchers INITIAL_DATA.
Proof.
  repeat split; try reflexivity.
  intros H. apply (f_equal (@List.length _)) in H. discriminate H.
Qed.

(** C1 (amended): the add operation performs no check on the amount.  Every
    submitted voucher, a negative one included, is appended at the end of the
    journal: the journal grows by exactly one entry, the earlier entries keep
    their positions, and the ledger registry is untouched. *)
Theorem addVoucher_appends_any_amount :
  forall (v : Voucher.t) (data : AppData),
    vouchers (addVoucher v data) = (vouchers data ++ [v])%list /\
    List.length (vouchers (addVoucher v data)) = S (List.length (vouchers data)) /\
    (forall i, (i < List.length (vouchers data))%nat ->
       nth_error (vouchers (addVoucher v data)) i = nth_error (vouchers data) i) /\
    nth_error (vouchers (addVoucher v data)) (List.length (vouchers data)) = Some v /\
    ledgers (addVoucher v data) = ledgers data.
Proof.
  intros v data. rewrite addVoucher_vouchers.
  repeat split.
  - rewrite length_app. simpl. lia.
  - intros i Hi. apply nth_error_app1. exact Hi.
  - rewrite nth_error_app2 by lia. rewrite Nat.sub_diag. reflexivity.
Qed.

(** ** Tally export *)

Lemma isPartyDebit_includes (v : Voucher.t) :
  includes [Sales; Payment] (Voucher.type v) = isPartyDebit v.
Proof. unfold isPartyDebit. destruct (Voucher.type v); reflexivity. Qed.

Lemma isPartyDebit_types (v : Voucher.t) :
  isPartyDebit v = true <-> Voucher.type v = Sales \/ Voucher.type v = Payment.
Proof.
  unfold isPartyDebit. destruct (Voucher.type v); split; intros H;
    try discriminate H; try reflexivity; auto;
    destruct H as [H | H]; discriminate H.
Qed.

(** C2 (as stated, refuted): voucher V003 of the initial journal is a Sales
    voucher, so the party leg is the debit-positive one, yet the flag written
    in its party entry is "No", not the affirmative value. *)
Lemma partyEntry_sales_flag_No :
  In salesV003 (vouchers INITIAL_DATA) /\
  isPartyDebit salesV003 = true /\
  ISDEEMEDPOSITIVE (partyEntry INITIAL_DATA salesV003) = "No" /\
  ISDEEMEDPOSITIVE (partyEntry INITIAL_DATA salesV003) <> "Yes".
Proof.
  repeat split.
  - simpl. tauto.
  - discriminate.
Qed.

(** C2 (amended): for every voucher, the flag of the party entry is "No"
    exactly when the voucher type is Sales or Payment and "Yes" for every
    other type, and its amount is [+amount] for Sales and Payment and
    [-amount] otherwise; so the flag reads "Yes" exactly on the entries whose
    amount is written negated. *)
Theorem partyEntry_flag_and_amount :
  forall (data : AppData) (v : Voucher.t),
    (isPartyDebit v = true <-> Voucher.type v = Sales \/ Voucher.type v = Payment) /\
    ISDEEMEDPOSITIVE (partyEntry data v) = (if isPartyDebit v then "No" else "Yes") /\
    AMOUNT (partyEntry data v) =
      (if isPartyDebit v then Voucher.amount v else - Voucher.amount v) /\
    (ISDEEMEDPOSITIVE (partyEntry data v) = "Yes" <->
     AMOUNT (partyEntry data v) = - Voucher.amount v /\ isPartyDebit v = false).
Proof.
  intros data v. split; [apply isPartyDebit_types|].
  unfold partyEntry; cbn [ISDEEMEDPOSITIVE AMOUNT].
  rewrite isPartyDebit_includes.
  destruct (isPartyDebit v); repeat split; try reflexivity;
    try discriminate; intros H; try discriminate H.
  destruct H as [_ H]. discriminate H.
Qed.

(** C6: for every voucher, whatever its type, the contra entry is the party
    entry with the amount negated and the flag flipped: the two amounts have
    the same absolute value, opposite signs and sum to zero, and the two
    flags differ. *)
Theorem export_entries_net_zero :
  forall (data : AppData) (v : Voucher.t),
    AMOUNT (contraEntry v) = - AMOUNT (partyEntry data v) /\
    Z.abs (AMOUNT (contraEntry v)) = Z.abs (AMOUNT (partyEntry data v)) /\
    Z.sgn (AMOUNT (contraEntry v)) = - Z.sgn (AMOUNT (partyEntry data v)) /\
    AMOUNT (partyEntry data v) + AMOUNT (contraEntry v) = 0 /\
    ISDEEMEDPOSITIVE (contraEntry v) = flipFlag (ISDEEMEDPOSITIVE (partyEntry data v)) /\
    ISDEEMEDPOSITIVE (contraEntry v) <> ISDEEMEDPOSITIVE (partyEntry data v).
Proof.
  intros data v. unfold contraEntry, partyEntry; cbn [ISDEEMEDPOSITIVE AMOUNT].
  destruct (includes [Sales; Payment] (Voucher.type v)); cbn;
    repeat split; try lia; try discriminate.
Qed.

Lemma append_empty_r (s : string) : s ++ "" = s.
Proof. induction s as [| c s IH]; simpl; [reflexivity | rewrite IH; reflexivity]. Qed.

Lemma append_assoc (a b c : string) : (a ++ b) ++ c = a ++ (b ++ c).
Proof. induction a as [| x a IH]; simpl; [reflexivity | rewrite IH; reflexivity]. Qed.

(** The party entry and the contra entry are the two entries written in the
    text of the voucher, the party entry first. *)
Lemma voucherText_entries (data : AppData) (v : Voucher.t) :
  exists before after : string,
    voucherText data v =
    before ++ entryText (partyEntry data v) ++ entryText (contraEntry v) ++ after.
Proof.
  unfold voucherText.
  exists ("     <VOUCHER VCHTYPE=" ++ dq ++ typeText (Voucher.type v) ++ dq ++
          " ACTION=" ++ dq ++ "Create" ++ dq ++ ">" ++ nl ++
          "      <DATE>" ++ dateStr v ++ "</DATE>" ++ nl ++
          "      <NARRATION>" ++ Voucher.narration v ++ "</NARRATION>" ++ nl ++
          "      <VOUCHERNUMBER>" ++ voucherNumber v ++ "</VOUCHERNUMBER>" ++ nl ++
          "      <PARTYLEDGERNAME>" ++ ledgerName data v ++ "</PARTYLEDGERNAME>" ++ nl).
  exists ("     </VOUCHER>" ++ nl).
  repeat rewrite append_assoc. reflexivity.
Qed.

Lemma fold_left_append (f : Voucher.t -> string) (vs : list Voucher.t) :
  forall acc : string,
    fold_left (fun xml v => xml ++ f v) vs acc = acc ++ concatAll (map f vs).
Proof.
  induction vs as [| v vs IH]; intros acc; simpl.
  - symmetry. apply append_empty_r.
  - rewrite IH. rewrite append_assoc. reflexivity.
Qed.

(** The pieces of the document: for every registry and journal the document
    is the header, then one piece per voucher of the journal, in journal
    order and each piece being the text of that very voucher, then the
    footer. *)
Theorem exportToTally_total :
  forall data : AppData,
    exportToTally data = xmlHeader ++ concatAll (voucherBlocks data) ++ xmlFooter /\
    List.length (voucherBlocks data) = List.length (vouchers data) /\
    (forall (i : nat) (v : Voucher.t),
        nth_error (vouchers data) i = Some v ->
        nth_error (voucherBlocks data) i = Some (voucherText data v)) /\
    (forall i : nat,
        nth_error (vouchers data) i = None -> nth_error (voucherBlocks data) i = None).
Proof.
  intros data. unfold exportToTally, voucherBlocks. repeat split.
  - rewrite fold_left_append. apply append_assoc.
  - apply length_map.
  - intros i v Hv. rewrite nth_error_map, Hv. reflexivity.
  - intros i Hv. rewrite nth_error_map, Hv. reflexivity.
Qed.

(** ** Ledger lookup in the export *)

Lemma find_after_delete (id : string) (ls : list Ledger.t) :
  find (fun l => (Ledger.id l =? id)%string)
       (filter (fun l => negb (Ledger.id l =? id)%string) ls) = None.
Proof.
  induction ls as [| l ls IH]; simpl; [reflexivity|].
  destruct (Ledger.id l =? id)%string eqn:E; simpl; [exact IH|].
  rewrite E. exact IH.
Qed.

Lemma find_other_after_delete (id other : string) (ls : list Ledger.t) :
  other <> id ->
  find (fun l => (Ledger.id l =? other)%string)
       (filter (fun l => negb (Ledger.id l =? id)%string) ls) =
  find (fun l => (Ledger.id l =? other)%string) ls.
Proof.
  intros Hne. induction ls as [| l ls IH]; simpl; [reflexivity|].
  destruct (Ledger.id l =? id)%string eqn:E; simpl.
  - apply String.eqb_eq in E.
    destruct (Ledger.id l =? other)%string eqn:E'; [|exact IH].
    apply String.eqb_eq in E'. congruence.
  - rewrite IH. reflexivity.
Qed.

(** C8: for every ledger id, deleting the ledger leaves the voucher journal
    exactly as it was, the vouchers that refer to the deleted ledger included,
    and the export that follows writes "Unknown Ledger" as the party name of
    each such voucher, still producing one block per voucher. *)
Theorem deleteLedger_keeps_journal :
  forall (id : string) (data : AppData),
    vouchers (deleteLedger id data) = vouchers data /\
    (forall v : Voucher.t,
        Voucher.ledgerId v = id ->
        ledgerName (deleteLedger id data) v = "Unknown Ledger" /\
        LEDGERNAME (partyEntry (deleteLedger id data) v) = "Unknown Ledger") /\
    List.length (voucherBlocks (deleteLedger id data)) = List.length (vouchers data).
Proof.
  intros id data. split; [reflexivity|]. split.
  - intros v Hv.
    assert (H : ledgerName (deleteLedger id data) v = "Unknown Ledger").
    { unfold ledgerName, deleteLedger; simpl. rewrite Hv.
      rewrite find_after_delete. reflexivity. }
    split; [exact H | exact H].
  - unfold voucherBlocks. rewrite length_map. reflexivity.
Qed.

(** The dangling reference of the initial data: once ledger "5" is deleted,
    voucher V003 is still in the journal and is exported under the sentinel. *)
Lemma deleteLedger_keeps_journal_witness :
  vouchers (deleteLedger "5" INITIAL_DATA) = vouchers INITIAL_DATA /\
  ledgerName (deleteLedger "5" INITIAL_DATA) salesV003 = "Unknown Ledger".
Proof.
  destruct (deleteLedger_keeps_journal "5" INITIAL_DATA) as [Hj [Hn _]].
  split; [exact Hj|].
  exact (proj1 (Hn salesV003 eq_refl)).
Defined.

(** X15: deleting a ledger does not change the name under which the vouchers
    of the other ledgers are exported. *)
Lemma deleteLedger_other_names (id : string) (data : AppData) (v : Voucher.t) :
  Voucher.ledgerId v <> id ->
  ledgerName (deleteLedger id data) v = ledgerName data v.
Proof.
  intros Hne. unfold ledgerName, deleteLedger; simpl.
  rewrite find_other_after_delete by exact Hne. reflexivity.
Qed.

(** C10: the party name written by the export is never the empty string.
    When the voucher's ledger exists but its name is empty, the name written
    is "Unknown Ledger", the same text as for a ledger that is missing. *)
Theorem ledgerName_never_empty :
  forall (data : AppData) (v : Voucher.t),
    ledgerName data v <> "" /\
    LEDGERNAME (partyEntry data v) = ledgerName data v /\
    (forall l : Ledger.t,
        find (fun l => (Ledger.id l =? Voucher.ledgerId v)%string) (ledgers data) = Some l ->
        Ledger.name l = "" ->
        ledgerName data v = "Unknown Ledger") /\
    (find (fun l => (Ledger.id l =? Voucher.ledgerId v)%string) (ledgers data) = None ->
     ledgerName data v = "Unknown Ledger").
Proof.
  intros data v. unfold ledgerName, truthy. repeat split.
  - destruct (find _ (ledgers data)) as [l|]; [|discriminate].
    destruct (Ledger.name l =? "")%string eqn:E; simpl; [discriminate|].
    apply String.eqb_neq. exact E.
  - intros l Hl Hname. rewrite Hl, Hname. reflexivity.
  - intros Hnone. rewrite Hnone. reflexivity.
Qed.

(** A registry whose ledger "9" has an empty name: the voucher that refers to
    it is exported under the sentinel. *)
Lemma ledgerName_never_empty_witness :
  ledgerName
    (addLedger (Ledger.mk "9" "" Expense None 0 None) INITIAL_DATA)
    (Voucher.mk "V006" "2024-04-08" Payment "9" 700 "Stationery" None)
  = "Unknown Ledger".
Proof.
  apply (proj1 (proj2 (proj2
    (ledgerName_never_empty
       (addLedger (Ledger.mk "9" "" Expense None 0 None) INITIAL_DATA)
       (Voucher.mk "V006" "2024-04-08" Payment "9" 700 "Stationery" None))))
    (Ledger.mk "9" "" Expense None 0 None)); reflexivity.
Defined.

(** ** Sums over the journal *)

Lemma fold_left_amounts (vs : list Voucher.t) :
  forall a : Z,
    fold_left (fun s v => s + Voucher.amount v) vs a = a + sumAmounts vs.
Proof.
  unfold sumAmounts.
  induction vs as [| v vs IH]; intros a; simpl.
  - lia.
  - rewrite (IH (a + Voucher.amount v)), (IH (Voucher.amount v)). lia.
Qed.

Lemma sumAmounts_cons (v : Voucher.t) (vs : list Voucher.t) :
  sumAmounts (v :: vs) = Voucher.amount v + sumAmounts vs.
Proof. unfold sumAmounts at 1. simpl. apply fold_left_amounts. Qed.

Lemma sumAmounts_filter_cons (p : Voucher.t -> bool) (v : Voucher.t) (vs : list Voucher.t) :
  sumAmounts (filter p (v :: vs)) =
  (if p v then Voucher.amount v else 0) + sumAmounts (filter p vs).
Proof.
  cbn [filter]. destruct (p v); [apply sumAmounts_cons | lia].
Qed.

Lemma debits_debitTotal (l : Ledger.t) (vs : list Voucher.t) :
  debits l vs = debitTotal l vs.
Proof.
  unfold debits. induction vs as [| v vs IH]; [reflexivity|].
  rewrite sumAmounts_filter_cons, IH. cbn [debitTotal].
  destruct (Voucher.ledgerId v =? Ledger.id l)%string; [|reflexivity].
  destruct (Voucher.type v); reflexivity.
Qed.

Lemma credits_creditTotal (l : Ledger.t) (vs : list Voucher.t) :
  credits l vs = creditTotal l vs.
Proof.
  unfold credits. induction vs as [| v vs IH]; [reflexivity|].
  rewrite sumAmounts_filter_cons, IH. cbn [creditTotal].
  destruct (Voucher.ledgerId v =? Ledger.id l)%string; [|reflexivity].
  destruct (Voucher.type v); reflexivity.
Qed.

Lemma net_balanceNet (l : Ledger.t) (vs : list Voucher.t) :
  net l vs = balanceNet l vs.
Proof.
  unfold net, balanceNet. rewrite debits_debitTotal, credits_creditTotal.
  reflexivity.
Qed.

Lemma balanceNet_insert (l : Ledger.t) (v : Voucher.t) (before after : list Voucher.t) :
  balanceNet l (before ++ v :: after) = balanceNet l (before ++ after) + contribution l v.
Proof.
  unfold balanceNet, contribution.
  induction before as [| w before IH]; simpl.
  - destruct (Voucher.ledgerId v =? Ledger.id l)%string; [|lia].
    destruct (Voucher.type v); lia.
  - destruct (Voucher.ledgerId w =? Ledger.id l)%string; [|exact IH].
    destruct (Voucher.type w); lia.
Qed.

Lemma balanceNet_unreferenced (l : Ledger.t) (vs : list Voucher.t) :
  (forall v, In v vs -> Voucher.ledgerId v <> Ledger.id l) ->
  balanceNet l vs = Ledger.openingBalance l.
Proof.
  unfold balanceNet. induction vs as [| v vs IH]; intros H; simpl; [lia|].
  assert (E : (Voucher.ledgerId v =? Ledger.id l)%string = false).
  { apply String.eqb_neq. apply H. left. reflexivity. }
  rewrite E. apply IH. intros w Hw. apply H. right. exact Hw.
Qed.

(** ** Balance of a ledger *)

(** C4: for every ledger and journal, the net computed for the trial balance
    is the opening balance, plus the amounts of the vouchers of the ledger of
    type Sales or Receipt, minus the amounts of its vouchers of type Purchase
    or Payment.  A voucher of type Journal or Contra changes nothing, wherever
    it stands in the journal, and a ledger to which no voucher refers has its
    opening balance as net. *)
Theorem net_derivation :
  forall (l : Ledger.t) (vs : list Voucher.t),
    net l vs = Ledger.openingBalance l + debitTotal l vs - creditTotal l vs /\
    (forall (v : Voucher.t) (before after : list Voucher.t),
        vs = (before ++ v :: after)%list ->
        Voucher.type v = Journal \/ Voucher.type v = Contra ->
        net l vs = net l (before ++ after)) /\
    ((forall v, In v vs -> Voucher.ledgerId v <> Ledger.id l) ->
     net l vs = Ledger.openingBalance l).
Proof.
  intros l vs. repeat split.
  - apply net_balanceNet.
  - intros v before after -> Hty.
    rewrite !net_balanceNet, balanceNet_insert.
    unfold contribution.
    destruct (Voucher.ledgerId v =? Ledger.id l)%string; [|lia].
    destruct Hty as [-> | ->]; lia.
  - intros H. rewrite net_balanceNet. apply balanceNet_unreferenced. exact H.
Qed.

(** In the initial data no voucher refers to the bank ledger "2", and its net
    is its opening balance. *)
Lemma net_derivation_witness :
  net (Ledger.mk "2" "HDFC Bank" Bank None 150000 None) (vouchers INITIAL_DATA) = 150000.
Proof.
  apply (proj2 (proj2 (net_derivation
           (Ledger.mk "2" "HDFC Bank" Bank None 150000 None) (vouchers INITIAL_DATA)))).
  intros v Hv. simpl in Hv.
  destruct Hv as [<- | [<- | [<- | [<- | []]]]]; discriminate.
Defined.

(** ** Trial balance *)

Lemma renderRows_app (a b : list (option Row)) :
  renderRows (a ++ b) = (renderRows a ++ renderRows b)%list.
Proof.
  induction a as [| [r |] a IH]; simpl; [reflexivity | rewrite IH; reflexivity | exact IH].
Qed.

Lemma trialBalanceRow_zero (vs : list Voucher.t) (l : Ledger.t) :
  trialBalanceRow vs l = None <-> net l vs = 0.
Proof.
  unfold trialBalanceRow. destruct (net l vs =? 0) eqn:E.
  - apply Z.eqb_eq in E. tauto.
  - apply Z.eqb_neq in E. split; [discriminate | tauto].
Qed.

Lemma trialBalanceRow_shows (vs : list Voucher.t) (l : Ledger.t) (r : Row) :
  trialBalanceRow vs l = Some r -> net l vs <> 0 /\ rowShows vs l r.
Proof.
  unfold trialBalanceRow, rowShows.
  destruct (net l vs =? 0) eqn:E; [discriminate|].
  apply Z.eqb_neq in E. intros H. injection H as <-. cbn [key particulars groupLabel debitCell creditCell].
  split; [exact E|]. split; [reflexivity|]. split; [reflexivity|].
  split; [reflexivity|]. split; intros Hs.
  - assert (G1 : (net l vs >? 0) = true) by (rewrite Z.gtb_ltb; apply Z.ltb_lt; lia).
    assert (G2 : (net l vs <? 0) = false) by (apply Z.ltb_ge; lia).
    rewrite G1, G2. split; reflexivity.
  - assert (G1 : (net l vs >? 0) = false) by (rewrite Z.gtb_ltb; apply Z.ltb_ge; lia).
    assert (G2 : (net l vs <? 0) = true) by (apply Z.ltb_lt; lia).
    rewrite G1, G2. split; reflexivity.
Qed.

(** C5: the rows of the trial balance are, in registry order, one row for
    each ledger of the registry whose net is not zero, and nothing else: a
    ledger whose net is exactly zero yields no row.  In the row of a ledger
    the debit cell holds the net and the credit cell is empty when the net is
    positive; the credit cell holds the absolute value of the net and the
    debit cell is empty when the net is negative. *)
Theorem trialBalance_rows :
  forall data : AppData,
    Forall2 (rowShows (vouchers data))
            (filter (fun l => negb (net l (vouchers data) =? 0)) (ledgers data))
            (trialBalance data) /\
    (forall l : Ledger.t,
        trialBalanceRow (vouchers data) l = None <-> net l (vouchers data) = 0).
Proof.
  intros data. split.
  - unfold trialBalance.
    induction (ledgers data) as [| l ls IH]; simpl; [constructor|].
    destruct (trialBalanceRow (vouchers data) l) as [r |] eqn:E.
    + destruct (trialBalanceRow_shows _ _ _ E) as [Hnz Hrow].
      apply Z.eqb_neq in Hnz. rewrite Hnz. simpl.
      constructor; [exact Hrow | exact IH].
    + apply trialBalanceRow_zero in E. rewrite E. simpl. exact IH.
  - intros l. apply trialBalanceRow_zero.
Qed.

(** The trial balance of the initial data. *)
Example trialBalance_initial :
  trialBalance INITIAL_DATA =
  [ mkRow "1" "Cash Account" "Cash" (Currency 100000) Dash;
    mkRow "2" "HDFC Bank" "Bank" (Currency 150000) Dash;
    mkRow "5" "Ramesh Traders" "Sundry Debtor" (Currency 45000) Dash;
    mkRow "6" "Tech Solutions Ltd" "Sundry Creditor" Dash (Currency 25000);
    mkRow "7" "Office Rent" "Expense" Dash (Currency 12000) ].
Proof. reflexivity. Qed.

Lemma trialBalanceRow_withGroup (g : LedgerGroup) (vs : list Voucher.t) (l : Ledger.t) :
  option_map columns (trialBalanceRow vs (withGroup g l)) =
  option_map columns (trialBalanceRow vs l).
Proof.
  unfold trialBalanceRow.
  change (net (withGroup g l) vs) with (net l vs).
  destruct (net l vs =? 0); reflexivity.
Qed.

Lemma columns_renderRows_cons (c : option Row) (rest : list (option Row)) :
  map columns (renderRows (c :: rest)) =
  (match option_map columns c with Some x => [x] | None => [] end
   ++ map columns (renderRows rest))%list.
Proof. destruct c; reflexivity. Qed.

(** C9: the group of a ledger has no influence on the column in which its
    amount appears.  Two registries that differ only in the group of one
    ledger give, with the same journal, trial balances whose rows agree on
    the ledger shown, on the debit cell and on the credit cell; the ledger
    has the same net in both, and the credit-nature classification, which
    does depend on the group, decides nothing. *)
Theorem trialBalance_group_irrelevant :
  forall (g : LedgerGroup) (before after : list Ledger.t) (l : Ledger.t) (data : AppData),
    map columns (trialBalance (setLedgers (before ++ withGroup g l :: after) data)) =
    map columns (trialBalance (setLedgers (before ++ l :: after) data)) /\
    net (withGroup g l) (vouchers data) = net l (vouchers data) /\
    isCreditNature (withGroup g l) = includesGroup [Liability; Income; SundryCreditor] g.
Proof.
  intros g before after l data. split; [|split; reflexivity].
  unfold trialBalance; simpl.
  rewrite !map_app, !renderRows_app, !map_app. f_equal.
  cbn [map]. rewrite !columns_renderRows_cons, trialBalanceRow_withGroup.
  reflexivity.
Qed.

(** The cash ledger of the initial data moved to the group Liability: the
    classification changes, the columns do not. *)
Example cash_as_liability :
  isCreditNature (Ledger.mk "1" "Cash Account" Cash None 50000 None) = false /\
  isCreditNature (withGroup Liability (Ledger.mk "1" "Cash Account" Cash None 50000 None)) = true /\
  option_map columns
    (trialBalanceRow (vouchers INITIAL_DATA)
       (withGroup Liability (Ledger.mk "1" "Cash Account" Cash None 50000 None))) =
  Some ("1", "Cash Account", Currency 100000, Dash).
Proof. repeat split. Qed.

(** ** Profit and loss *)

Lemma sumAmounts_totalOfType (t : VoucherType) (vs : list Voucher.t) :
  sumAmounts (filter (fun v => VoucherType_eqb (Voucher.type v) t) vs) = totalOfType t vs.
Proof.
  induction vs as [| v vs IH]; [reflexivity|].
  rewrite sumAmounts_filter_cons, IH. cbn [totalOfType].
  destruct (VoucherType_eqb (Voucher.type v) t); lia.
Qed.

(** The three aggregates are the sums over the whole journal by type; the
    fourth figure is the same number for every journal. *)
Lemma computeProfitAndLoss_figures (vs : list Voucher.t) :
  pl_revenue (computeProfitAndLoss vs) = totalOfType Sales vs /\
  pl_costOfGoods (computeProfitAndLoss vs) = totalOfType Purchase vs /\
  pl_directExpenses (computeProfitAndLoss vs) = totalOfType Payment vs /\
  pl_netProfit (computeProfitAndLoss vs) = 10000.
Proof.
  unfold computeProfitAndLoss, totalSalesRevenue, totalPurchaseCost, directExpenses;
    simpl.
  rewrite !sumAmounts_totalOfType. repeat split.
Qed.

(** C3 (the code departs from the claim): on the initial journal the revenue
    is 45000, the cost of goods 25000 and the direct expenses 12000, so
    Revenue - CostOfGoods - DirectExpenses is 8000, while the net profit
    reported is 10000. *)
Theorem netProfit_initial_mismatch :
  pl_revenue (computeProfitAndLoss (vouchers INITIAL_DATA)) = 45000 /\
  pl_costOfGoods (computeProfitAndLoss (vouchers INITIAL_DATA)) = 25000 /\
  pl_directExpenses (computeProfitAndLoss (vouchers INITIAL_DATA)) = 12000 /\
  derivedNetProfit (vouchers INITIAL_DATA) = 8000 /\
  pl_netProfit (computeProfitAndLoss (vouchers INITIAL_DATA)) = 10000 /\
  pl_netProfit (computeProfitAndLoss (vouchers INITIAL_DATA)) <>
    derivedNetProfit (vouchers INITIAL_DATA).
Proof. repeat split. discriminate. Qed.

(** ** The blocks as they are read back from the text

    The fields of a voucher are written into the document as they are.  When
    none of them contains an opening angle bracket, the opening tags of the
    voucher blocks found in the text are as many as the vouchers. *)

Lemma occurrences_plain (a b : string) :
  plainText a = true ->
  occurrences "<VOUCHER " (a ++ b) = occurrences "<VOUCHER " b.
Proof.
  induction a as [| c a IH]; intros Hp; [reflexivity|].
  simpl in Hp. apply andb_prop in Hp. destruct Hp as [Hc Ha].
  change (String c a ++ b) with (String c (a ++ b)).
  cbn [occurrences startsWith].
  rewrite Ascii.eqb_sym. apply negb_true_iff in Hc. rewrite Hc.
  simpl. apply IH. exact Ha.
Qed.

Lemma plainText_removeHyphens (s : string) :
  plainText s = true -> plainText (removeHyphens s) = true.
Proof.
  induction s as [| c s IH]; intros Hp; [reflexivity|].
  simpl in Hp. apply andb_prop in Hp. destruct Hp as [Hc Hs].
  simpl. destruct (c =? "-")%char; [apply IH; exact Hs|].
  simpl. rewrite Hc. apply IH. exact Hs.
Qed.

Lemma plainText_uint (d : Decimal.uint) :
  plainText (NilEmpty.string_of_uint d) = true.
Proof. induction d; simpl; auto. Qed.

Lemma plainText_numberText (z : Z) : plainText (numberText z) = true.
Proof.
  unfold numberText, NilZero.string_of_int, NilZero.string_of_uint.
  destruct (Z.to_int z) as [d | d]; destruct d; simpl;
    auto using plainText_uint.
Qed.

Lemma plainText_typeText (t : VoucherType) : plainText (typeText t) = true.
Proof. destruct t; reflexivity. Qed.

(** Walks through a text made of literal pieces and of pieces known to be
    plain, counting the tags met on the way. *)
Ltac skip_plain :=
  repeat (first [ rewrite occurrences_plain by assumption | progress simpl ]).

Lemma occurrences_entryText (e : LedgerEntry) (rest : string) :
  plainText (LEDGERNAME e) = true ->
  plainText (ISDEEMEDPOSITIVE e) = true ->
  occurrences "<VOUCHER " (entryText e ++ rest) = occurrences "<VOUCHER " rest.
Proof.
  intros Hn Hf. pose proof (plainText_numberText (AMOUNT e)) as Ha.
  unfold entryText. repeat rewrite append_assoc.
  skip_plain. reflexivity.
Qed.

Lemma plainText_flags (data : AppData) (v : Voucher.t) :
  plainText (ISDEEMEDPOSITIVE (partyEntry data v)) = true /\
  plainText (ISDEEMEDPOSITIVE (contraEntry v)) = true /\
  plainText (LEDGERNAME (contraEntry v)) = true.
Proof.
  unfold partyEntry, contraEntry, contraLedger; simpl.
  destruct (Voucher.type v); repeat split.
Qed.

Lemma occurrences_voucherText (data : AppData) (v : Voucher.t) (rest : string) :
  plainFields data v = true ->
  occurrences "<VOUCHER " (voucherText data v ++ rest) =
  S (occurrences "<VOUCHER " rest).
Proof.
  unfold plainFields. intros H.
  apply andb_prop in H. destruct H as [H Hname].
  apply andb_prop in H. destruct H as [H Hnum].
  apply andb_prop in H. destruct H as [Hdate Hnarr].
  pose proof (plainText_typeText (Voucher.type v)) as Hty.
  pose proof (plainText_removeHyphens _ Hdate) as Hds. fold (dateStr v) in Hds.
  destruct (plainText_flags data v) as [Hf1 [Hf2 Hc]].
  unfold voucherText.
  remember (entryText (partyEntry data v)) as party eqn:Eparty.
  remember (entryText (contraEntry v)) as contra eqn:Econtra.
  repeat rewrite append_assoc. skip_plain. subst party contra.
  rewrite !occurrences_entryText by assumption.
  reflexivity.
Qed.

Lemma occurrences_blocks (data : AppData) (vs : list Voucher.t) :
  (forall v, In v vs -> plainFields data v = true) ->
  occurrences "<VOUCHER " (concatAll (map (voucherText data) vs) ++ xmlFooter) =
  List.length vs.
Proof.
  induction vs as [| v vs IH]; intros Hp; [reflexivity|].
  cbn [map concatAll fold_right List.length]. rewrite append_assoc.
  rewrite occurrences_voucherText by (apply Hp; left; reflexivity).
  f_equal. apply IH. intros w Hw. apply Hp. right. exact Hw.
Qed.

(** X14: when no date, narration, voucher number or party name of the journal
    holds an opening angle bracket, the opening tags of voucher blocks found
    in the exported text are exactly as many as the vouchers of the journal. *)
Lemma exportToTally_tags_counted (data : AppData) :
  (forall v, In v (vouchers data) -> plainFields data v = true) ->
  occurrences "<VOUCHER " (exportToTally data) = List.length (vouchers data).
Proof.
  intros Hp. unfold exportToTally. rewrite fold_left_append, append_assoc.
  unfold xmlHeader. repeat rewrite append_assoc.
  change (occurrences "<VOUCHER "
            (concatAll (map (voucherText data) (vouchers data)) ++ xmlFooter)
          = List.length (vouchers data)).
  apply occurrences_blocks. exact Hp.
Qed.

Example exportToTally_initial_tags :
  occurrences "<VOUCHER " (exportToTally INITIAL_DATA) = 4%nat.
Proof. reflexivity. Qed.

(** A narration that itself carries the text of an opening tag is written
    unchanged, and is then read back as one more opening tag. *)
Example exportToTally_markup_in_narration :
  let v := Voucher.mk "V007" "2024-04-09" Journal "1" 10 "see <VOUCHER 12>" None in
  List.length (voucherBlocks (addVoucher v INITIAL_DATA)) = 5%nat /\
  occurrences "<VOUCHER " (exportToTally (addVoucher v INITIAL_DATA)) = 6%nat.
Proof. split; reflexivity. Qed.

(** * Further properties of the stores *)

Lemma AppData_eta (data : AppData) :
  {| ledgers := ledgers data; vouchers := vouchers data;
     companyName := companyName data; companyAddress := companyAddress data;
     companyGst := companyGst data; companyPhone := companyPhone data;
     companyEmail := companyEmail data |} = data.
Proof. destruct data; reflexivity. Qed.

Lemma filter_all {A : Type} (p : A -> bool) (xs : list A) :
  (forall x, In x xs -> p x = true) -> filter p xs = xs.
Proof.
  induction xs as [| x xs IH]; intros H; simpl; [reflexivity|].
  rewrite (H x (or_introl eq_refl)). f_equal.
  apply IH. intros y Hy. apply H. right. exact Hy.
Qed.

(** Deleting a voucher id removes every voucher carrying that id, keeps
    every other voucher, and leaves the registry alone. *)
Theorem deleteVoucher_membership :
  forall (id : string) (data : AppData) (v : Voucher.t),
    (In v (vouchers (deleteVoucher id data)) <->
     In v (vouchers data) /\ Voucher.id v <> id) /\
    ledgers (deleteVoucher id data) = ledgers data /\
    (List.length (vouchers (deleteVoucher id data)) <= List.length (vouchers data))%nat.
Proof.
  intros id data v. unfold deleteVoucher; simpl.
  split; [|split; [reflexivity | apply filter_length_le]].
  rewrite filter_In, negb_true_iff, String.eqb_neq. tauto.
Qed.

(** X1: deleting an id that no voucher carries changes nothing at all. *)
Theorem deleteVoucher_absent :
  forall (id : string) (data : AppData),
    (forall v, In v (vouchers data) -> Voucher.id v <> id) ->
    deleteVoucher id data = data.
Proof.
  intros id data H. unfold deleteVoucher, setVouchers.
  rewrite filter_all; [apply AppData_eta|].
  intros v Hv. apply negb_true_iff, String.eqb_neq. apply H. exact Hv.
Qed.

Lemma deleteVoucher_absent_witness :
  deleteVoucher "V999" INITIAL_DATA = INITIAL_DATA.
Proof.
  apply deleteVoucher_absent. intros v Hv. simpl in Hv.
  destruct Hv as [<- | [<- | [<- | [<- | []]]]]; discriminate.
Defined.

(** X2: a voucher added under an id that no earlier voucher carries is
    removed again by deleting that id, giving back the data as they were. *)
Theorem addVoucher_deleteVoucher :
  forall (v : Voucher.t) (data : AppData),
    (forall w, In w (vouchers data) -> Voucher.id w <> Voucher.id v) ->
    deleteVoucher (Voucher.id v) (addVoucher v data) = data.
Proof.
  intros v data H. unfold deleteVoucher, addVoucher, setVouchers; simpl.
  rewrite filter_app; simpl. rewrite String.eqb_refl; simpl.
  rewrite app_nil_r, filter_all; [apply AppData_eta|].
  intros w Hw. apply negb_true_iff, String.eqb_neq. apply H. exact Hw.
Qed.

Lemma addVoucher_deleteVoucher_witness :
  deleteVoucher "V005" (addVoucher refundVoucher INITIAL_DATA) = INITIAL_DATA.
Proof.
  apply (addVoucher_deleteVoucher refundVoucher INITIAL_DATA).
  intros w Hw. simpl in Hw.
  destruct Hw as [<- | [<- | [<- | [<- | []]]]]; discriminate.
Defined.

(** X3: a ledger added under an id that no earlier ledger carries is removed
    again by deleting that id, giving back the data as they were. *)
Theorem addLedger_deleteLedger :
  forall (l : Ledger.t) (data : AppData),
    (forall k, In k (ledgers data) -> Ledger.id k <> Ledger.id l) ->
    deleteLedger (Ledger.id l) (addLedger l data) = data.
Proof.
  intros l data H. unfold deleteLedger, addLedger, setLedgers; simpl.
  rewrite filter_app; simpl. rewrite String.eqb_refl; simpl.
  rewrite app_nil_r, filter_all; [apply AppData_eta|].
  intros k Hk. apply negb_true_iff, String.eqb_neq. apply H. exact Hk.
Qed.

Lemma addLedger_deleteLedger_witness :
  deleteLedger "9" (addLedger (Ledger.mk "9" "Stationery" Expense None 0 None) INITIAL_DATA)
  = INITIAL_DATA.
Proof.
  apply (addLedger_deleteLedger (Ledger.mk "9" "Stationery" Expense None 0 None)).
  intros k Hk. simpl in Hk.
  destruct Hk as [<- | [<- | [<- | [<- | [<- | [<- | [<- | [<- | []]]]]]]]];
    discriminate.
Defined.

(** Deleting a ledger id removes from the registry every ledger carrying
    that id and no other; a second deletion of the same id has no further
    effect. *)
Theorem deleteLedger_membership :
  forall (id : string) (data : AppData) (l : Ledger.t),
    (In l (ledgers (deleteLedger id data)) <->
     In l (ledgers data) /\ Ledger.id l <> id) /\
    deleteLedger id (deleteLedger id data) = deleteLedger id data.
Proof.
  intros id data l. split.
  - unfold deleteLedger; simpl. rewrite filter_In.
    rewrite negb_true_iff, String.eqb_neq. tauto.
  - unfold deleteLedger, setLedgers; simpl. f_equal.
    apply filter_all. intros k Hk. apply filter_In in Hk. tauto.
Qed.

Lemma renderRows_filter_key (id : string) (vs : list Voucher.t) (ls : list Ledger.t) :
  renderRows
    (map (trialBalanceRow vs) (filter (fun l => negb (Ledger.id l =? id)%string) ls)) =
  filter (fun r => negb (key r =? id)%string) (renderRows (map (trialBalanceRow vs) ls)).
Proof.
  induction ls as [| l ls IH]; [reflexivity|].
  cbn [filter map].
  destruct (trialBalanceRow vs l) as [r |] eqn:E.
  - assert (Hk : key r = Ledger.id l).
    { apply trialBalanceRow_shows in E. destruct E as [_ [Hk _]]. exact Hk. }
    cbn [renderRows filter]. rewrite Hk.
    destruct (negb (Ledger.id l =? id)%string); cbn [map renderRows].
    + rewrite E. rewrite IH. reflexivity.
    + exact IH.
  - cbn [renderRows].
    destruct (negb (Ledger.id l =? id)%string); cbn [map renderRows].
    + rewrite E. exact IH.
    + exact IH.
Qed.

(** X4: deleting a ledger removes from the trial balance exactly the rows of
    that id; the rows of the other ledgers are unchanged and keep their
    order. *)
Theorem trialBalance_deleteLedger :
  forall (id : string) (data : AppData),
    trialBalance (deleteLedger id data) =
    filter (fun r => negb (key r =? id)%string) (trialBalance data).
Proof.
  intros id data. unfold trialBalance, deleteLedger; simpl.
  apply renderRows_filter_key.
Qed.

(** X5: a ledger added to the registry appears at the end of the trial
    balance when its net is not zero, and not at all otherwise; the rows
    already there do not change. *)
Theorem trialBalance_addLedger :
  forall (l : Ledger.t) (data : AppData),
    trialBalance (addLedger l data) =
    (trialBalance data ++
     match trialBalanceRow (vouchers data) l with Some r => [r] | None => [] end)%list.
Proof.
  intros l data. unfold trialBalance, addLedger; simpl.
  rewrite map_app, renderRows_app. cbn [map renderRows].
  destruct (trialBalanceRow (vouchers data) l); reflexivity.
Qed.

Lemma net_app_one (l : Ledger.t) (vs : list Voucher.t) (v : Voucher.t) :
  net l (vs ++ [v]) = net l vs + contribution l v.
Proof.
  rewrite !net_balanceNet, balanceNet_insert, app_nil_r. reflexivity.
Qed.

(** Adding a voucher changes the net of a ledger by the amount of the
    voucher when the voucher refers to the ledger and is a Sales or Receipt,
    by minus the amount when it is a Purchase or Payment, and by nothing in
    every other case; in particular the net of every ledger with another id
    is unchanged. *)
Theorem net_addVoucher :
  forall (l : Ledger.t) (v : Voucher.t) (data : AppData),
    net l (vouchers (addVoucher v data)) = net l (vouchers data) + contribution l v /\
    (Voucher.ledgerId v <> Ledger.id l ->
     net l (vouchers (addVoucher v data)) = net l (vouchers data)).
Proof.
  intros l v data. rewrite addVoucher_vouchers, net_app_one. split; [reflexivity|].
  intros Hne. unfold contribution.
  apply String.eqb_neq in Hne. rewrite Hne. lia.
Qed.

(** ** The order of the journal *)

Lemma debitTotal_perm (l : Ledger.t) (vs vs' : list Voucher.t) :
  Permutation vs vs' -> debitTotal l vs = debitTotal l vs'.
Proof.
  induction 1 as [| x vs vs' _ IH | x y vs | vs vs' vs'' _ IH1 _ IH2]; simpl.
  - reflexivity.
  - rewrite IH. reflexivity.
  - destruct (Voucher.ledgerId x =? Ledger.id l)%string;
      destruct (Voucher.ledgerId y =? Ledger.id l)%string;
      destruct (Voucher.type x); destruct (Voucher.type y); lia.
  - congruence.
Qed.

Lemma creditTotal_perm (l : Ledger.t) (vs vs' : list Voucher.t) :
  Permutation vs vs' -> creditTotal l vs = creditTotal l vs'.
Proof.
  induction 1 as [| x vs vs' _ IH | x y vs | vs vs' vs'' _ IH1 _ IH2]; simpl.
  - reflexivity.
  - rewrite IH. reflexivity.
  - destruct (Voucher.ledgerId x =? Ledger.id l)%string;
      destruct (Voucher.ledgerId y =? Ledger.id l)%string;
      destruct (Voucher.type x); destruct (Voucher.type y); lia.
  - congruence.
Qed.

Lemma totalOfType_perm (t : VoucherType) (vs vs' : list Voucher.t) :
  Permutation vs vs' -> totalOfType t vs = totalOfType t vs'.
Proof.
  induction 1 as [| x vs vs' _ IH | x y vs | vs vs' vs'' _ IH1 _ IH2]; simpl.
  - reflexivity.
  - rewrite IH. reflexivity.
  - destruct (VoucherType_eqb (Voucher.type x) t);
      destruct (VoucherType_eqb (Voucher.type y) t); lia.
  - congruence.
Qed.

Lemma net_perm (l : Ledger.t) (vs vs' : list Voucher.t) :
  Permutation vs vs' -> net l vs = net l vs'.
Proof.
  intros H. rewrite !net_balanceNet. unfold balanceNet.
  rewrite (debitTotal_perm l _ _ H), (creditTotal_perm l _ _ H). reflexivity.
Qed.

Lemma cashBalance_totals (data : AppData) :
  cashBalance data =
  match cashLedger data with
  | Some l => orZero (Ledger.openingBalance l)
  | None => 0
  end + totalOfType Receipt (vouchers data) - totalOfType Payment (vouchers data).
Proof.
  unfold cashBalance, totalReceipts, totalPayments.
  rewrite !sumAmounts_totalOfType. reflexivity.
Qed.

Lemma magnitude_perm (vs vs' : list Voucher.t) :
  Permutation vs vs' -> magnitude vs = magnitude vs'.
Proof.
  induction 1 as [| x vs vs' _ IH | x y vs | vs vs' vs'' _ IH1 _ IH2]; simpl;
    [reflexivity | rewrite IH; reflexivity | lia | congruence].
Qed.

(** X6: within the range of exact arithmetic (integer amounts and opening
    balances; for every ledger the magnitude of its opening balance plus the
    magnitudes of all amounts is at most 2^53), the order in which the
    vouchers stand in the journal has no influence on the reports: a journal
    holding the same vouchers in another order is within the range too and
    gives the same trial balance, the same profit and loss figures and the
    same cash in hand. *)
Theorem reports_ignore_journal_order :
  forall (data : AppData) (vs' : list Voucher.t),
    Permutation (vouchers data) vs' ->
    withinExactRange data = true ->
    withinExactRange (setVouchers vs' data) = true /\
    trialBalance (setVouchers vs' data) = trialBalance data /\
    computeProfitAndLoss vs' = computeProfitAndLoss (vouchers data) /\
    cashBalance (setVouchers vs' data) = cashBalance data.
Proof.
  intros data vs' H Hrange. repeat split.
  - unfold withinExactRange in *. cbn [vouchers ledgers setVouchers].
    rewrite <- (magnitude_perm _ _ H). exact Hrange.
  - unfold trialBalance; simpl. f_equal. apply map_ext. intros l.
    unfold trialBalanceRow. rewrite (net_perm l _ _ H). reflexivity.
  - unfold computeProfitAndLoss, totalSalesRevenue, totalPurchaseCost, directExpenses.
    rewrite !sumAmounts_totalOfType.
    rewrite !(totalOfType_perm _ _ _ H). reflexivity.
  - rewrite !cashBalance_totals. unfold cashLedger; simpl.
    rewrite !(totalOfType_perm _ _ _ H). reflexivity.
Qed.

Lemma reports_ignore_journal_order_witness :
  withinExactRange INITIAL_DATA = true /\
  trialBalance (setVouchers (rev (vouchers INITIAL_DATA)) INITIAL_DATA) =
  trialBalance INITIAL_DATA.
Proof.
  split; [reflexivity|].
  exact (proj1 (proj2 (reports_ignore_journal_order INITIAL_DATA
                  (rev (vouchers INITIAL_DATA))
                  (Permutation_rev (vouchers INITIAL_DATA)) eq_refl))).
Defined.

Lemma totalOfType_app_one (t : VoucherType) (vs : list Voucher.t) (v : Voucher.t) :
  totalOfType t (vs ++ [v]) =
  totalOfType t vs + (if VoucherType_eqb (Voucher.type v) t then Voucher.amount v else 0).
Proof.
  induction vs as [| w vs IH]; simpl.
  - destruct (VoucherType_eqb (Voucher.type v) t); lia.
  - rewrite IH. destruct (VoucherType_eqb (Voucher.type w) t); lia.
Qed.

(** X7: adding a voucher raises the revenue by its amount when it is a Sales
    voucher, the purchase cost when it is a Purchase, the direct expenses
    when it is a Payment; a Receipt, Journal or Contra voucher changes none
    of the figures, and no voucher changes the net profit shown. *)
Theorem computeProfitAndLoss_addVoucher :
  forall (v : Voucher.t) (data : AppData),
    computeProfitAndLoss (vouchers (addVoucher v data)) =
    match Voucher.type v with
    | Sales =>
        {| pl_revenue := pl_revenue (computeProfitAndLoss (vouchers data)) + Voucher.amount v;
           pl_costOfGoods := pl_costOfGoods (computeProfitAndLoss (vouchers data));
           pl_directExpenses := pl_directExpenses (computeProfitAndLoss (vouchers data));
           pl_netProfit := pl_netProfit (computeProfitAndLoss (vouchers data)) |}
    | Purchase =>
        {| pl_revenue := pl_revenue (computeProfitAndLoss (vouchers data));
           pl_costOfGoods := pl_costOfGoods (computeProfitAndLoss (vouchers data)) + Voucher.amount v;
           pl_directExpenses := pl_directExpenses (computeProfitAndLoss (vouchers data));
           pl_netProfit := pl_netProfit (computeProfitAndLoss (vouchers data)) |}
    | Payment =>
        {| pl_revenue := pl_revenue (computeProfitAndLoss (vouchers data));
           pl_costOfGoods := pl_costOfGoods (computeProfitAndLoss (vouchers data));
           pl_directExpenses := pl_directExpenses (computeProfitAndLoss (vouchers data)) + Voucher.amount v;
           pl_netProfit := pl_netProfit (computeProfitAndLoss (vouchers data)) |}
    | Receipt | Journal | Contra => computeProfitAndLoss (vouchers data)
    end.
Proof.
  intros v data. rewrite addVoucher_vouchers.
  unfold computeProfitAndLoss, totalSalesRevenue, totalPurchaseCost, directExpenses, netProfit.
  cbn [pl_revenue pl_costOfGoods pl_directExpenses pl_netProfit].
  rewrite !sumAmounts_totalOfType, !totalOfType_app_one.
  destruct (Voucher.type v); cbn [VoucherType_eqb]; rewrite ?Z.add_0_r; reflexivity.
Qed.

Lemma magnitude_app_one (vs : list Voucher.t) (v : Voucher.t) :
  magnitude (vs ++ [v]) = magnitude vs + Z.abs (Voucher.amount v).
Proof.
  induction vs as [| w vs IH]; simpl; [lia | rewrite IH; lia].
Qed.

Lemma withinExactRange_before (v : Voucher.t) (data : AppData) :
  withinExactRange (addVoucher v data) = true -> withinExactRange data = true.
Proof.
  unfold withinExactRange. rewrite addVoucher_vouchers, magnitude_app_one.
  change (ledgers (addVoucher v data)) with (ledgers data).
  intros H. apply andb_prop in H. destruct H as [Hm Hl].
  apply Z.leb_le in Hm. apply andb_true_intro. split.
  - apply Z.leb_le. lia.
  - rewrite forallb_forall in *. intros l Hin.
    specialize (Hl l Hin). apply Z.leb_le in Hl. apply Z.leb_le. lia.
Qed.

(** X8: within the range of exact arithmetic (integer amounts and opening
    balances; with the new voucher counted, for every ledger the magnitude of
    its opening balance plus the magnitudes of all amounts is at most 2^53),
    the cash in hand of the dashboard moves by the amount of every Receipt
    added to the journal (up) and of every Payment (down), whichever ledger
    the voucher refers to, and with no voucher of another type. *)
Theorem cashBalance_addVoucher :
  forall (v : Voucher.t) (data : AppData),
    withinExactRange (addVoucher v data) = true ->
    withinExactRange data = true /\
    cashBalance (addVoucher v data) = cashBalance data + cashEffect v.
Proof.
  intros v data Hrange. split; [apply (withinExactRange_before v); exact Hrange|].
  rewrite !cashBalance_totals.
  change (cashLedger (addVoucher v data)) with (cashLedger data).
  rewrite addVoucher_vouchers, !totalOfType_app_one. unfold cashEffect.
  destruct (Voucher.type v); cbn [VoucherType_eqb]; lia.
Qed.

(** A receipt of 700 from the debtor "5": the cash in hand of the initial
    data, 88000, becomes 88700. *)
Lemma cashBalance_addVoucher_witness :
  cashBalance
    (addVoucher (Voucher.mk "V011" "2024-04-13" Receipt "5" 700 "On account" None)
                INITIAL_DATA) = 88000 + 700.
Proof.
  exact (proj2 (cashBalance_addVoucher
                  (Voucher.mk "V011" "2024-04-13" Receipt "5" 700 "On account" None)
                  INITIAL_DATA eq_refl)).
Defined.

(** X9: when the registry holds no ledger of the group Cash, the cash in
    hand is the receipts minus the payments; otherwise only the first Cash
    ledger of the registry counts, with its opening balance. *)
Theorem cashBalance_opening :
  forall data : AppData,
    ((forall l, In l (ledgers data) -> Ledger.group l <> Cash) ->
     cashBalance data = totalReceipts data - totalPayments data) /\
    (forall (before after : list Ledger.t) (l : Ledger.t),
        ledgers data = (before ++ l :: after)%list ->
        (forall k, In k before -> Ledger.group k <> Cash) ->
        Ledger.group l = Cash ->
        cashBalance data =
        Ledger.openingBalance l + totalReceipts data - totalPayments data).
Proof.
  intros data. unfold cashBalance, cashLedger. split.
  - intros H.
    assert (E : find (fun l => LedgerGroup_eqb (Ledger.group l) Cash) (ledgers data) = None).
    { induction (ledgers data) as [| l ls IH]; [reflexivity|]. simpl.
      destruct (LedgerGroup_eqb (Ledger.group l) Cash) eqn:G.
      - exfalso. apply (H l (or_introl eq_refl)).
        destruct (Ledger.group l); try discriminate G; reflexivity.
      - apply IH. intros k Hk. apply H. right. exact Hk. }
    rewrite E. lia.
  - intros before after l -> Hb Hl.
    assert (E : find (fun l => LedgerGroup_eqb (Ledger.group l) Cash)
                     (before ++ l :: after) = Some l).
    { induction before as [| k before IH]; simpl.
      - rewrite Hl. reflexivity.
      - destruct (LedgerGroup_eqb (Ledger.group k) Cash) eqn:G.
        + exfalso. apply (Hb k (or_introl eq_refl)).
          destruct (Ledger.group k); try discriminate G; reflexivity.
        + apply IH. intros m Hm. apply Hb. right. exact Hm. }
    rewrite E. unfold orZero.
    destruct (Ledger.openingBalance l =? 0) eqn:Z0; [|reflexivity].
    apply Z.eqb_eq in Z0. lia.
Qed.

Lemma cashBalance_opening_witness :
  cashBalance (deleteLedger "1" INITIAL_DATA) =
  totalReceipts (deleteLedger "1" INITIAL_DATA) - totalPayments (deleteLedger "1" INITIAL_DATA).
Proof.
  apply (proj1 (cashBalance_opening (deleteLedger "1" INITIAL_DATA))).
  intros l Hl. simpl in Hl.
  destruct Hl as [<- | [<- | [<- | [<- | [<- | [<- | [<- | []]]]]]]]; discriminate.
Defined.

(** * Further properties of the export *)

Lemma concatAll_app (a b : list string) :
  concatAll (a ++ b) = concatAll a ++ concatAll b.
Proof.
  induction a as [| x a IH]; simpl; [reflexivity|].
  rewrite IH, append_assoc. reflexivity.
Qed.

(** X10: the export grows at its end.  After a voucher is added, the document
    is the header, the blocks of the earlier vouchers exactly as they were,
    the block of the new voucher, and the footer; with an empty journal the
    document is the header followed by the footer. *)
Theorem exportToTally_addVoucher :
  forall (v : Voucher.t) (data : AppData),
    exportToTally (addVoucher v data) =
      xmlHeader ++ concatAll (voucherBlocks data) ++ voucherText data v ++ xmlFooter /\
    exportToTally (setVouchers [] data) = xmlHeader ++ xmlFooter.
Proof.
  intros v data. split; [|reflexivity].
  unfold exportToTally, voucherBlocks. rewrite fold_left_append.
  rewrite addVoucher_vouchers, map_app, concatAll_app.
  change (voucherText (addVoucher v data)) with (voucherText data).
  cbn [map concatAll fold_right]. rewrite append_empty_r.
  rewrite !append_assoc. reflexivity.
Qed.

Lemma find_app_ledgers (p : Ledger.t -> bool) (a b : list Ledger.t) :
  find p (a ++ b) = match find p a with Some x => Some x | None => find p b end.
Proof.
  induction a as [| x a IH]; simpl; [reflexivity|].
  destruct (p x); [reflexivity | exact IH].
Qed.

(** X11: adding a ledger never changes the name under which a voucher is
    exported when the registry already holds a ledger with the id the voucher
    refers to, even if the new ledger carries the same id; when no such ledger
    exists, the voucher takes the name of the new ledger if the ids agree and
    the name is not empty, and stays "Unknown Ledger" otherwise. *)
Theorem ledgerName_addLedger :
  forall (l : Ledger.t) (data : AppData) (v : Voucher.t),
    ledgerName (addLedger l data) v =
    match find (fun k => (Ledger.id k =? Voucher.ledgerId v)%string) (ledgers data) with
    | Some _ => ledgerName data v
    | None =>
        if (Ledger.id l =? Voucher.ledgerId v)%string && truthy (Ledger.name l)
        then Ledger.name l else "Unknown Ledger"
    end.
Proof.
  intros l data v. unfold ledgerName, addLedger; simpl.
  rewrite find_app_ledgers.
  destruct (find _ (ledgers data)); [reflexivity|]. simpl.
  destruct (Ledger.id l =? Voucher.ledgerId v)%string; simpl; [|reflexivity].
  destruct (truthy (Ledger.name l)); reflexivity.
Qed.

Lemma containsChar_removeHyphens (c : ascii) (s : string) :
  containsChar c (removeHyphens s) =
  if (c =? "-")%char then false else containsChar c s.
Proof.
  induction s as [| x s IH]; simpl.
  - destruct (c =? "-")%char; reflexivity.
  - destruct (x =? "-")%char eqn:E; simpl; rewrite IH.
    + apply Ascii.eqb_eq in E. subst x.
      destruct (c =? "-")%char eqn:F; [reflexivity|].
      rewrite Ascii.eqb_sym, F. reflexivity.
    + destruct (c =? "-")%char eqn:F; [|reflexivity].
      apply Ascii.eqb_eq in F. subst c. rewrite E. reflexivity.
Qed.

Lemma removeHyphens_fixed (s : string) :
  containsChar "-" s = false -> removeHyphens s = s.
Proof.
  induction s as [| x s IH]; simpl; intros H; [reflexivity|].
  apply orb_false_iff in H. destruct H as [Hx Hs].
  rewrite Hx, IH by exact Hs. reflexivity.
Qed.

Lemma removeHyphens_length (s : string) :
  (String.length (removeHyphens s) <= String.length s)%nat.
Proof.
  induction s as [| x s IH]; simpl; [lia|].
  destruct (x =? "-")%char; simpl; lia.
Qed.

(** X12: the date written in the export holds no hyphen, holds every other
    character of the voucher date exactly when the voucher date holds it, is
    never longer than the voucher date, and is the voucher date itself when
    that date has no hyphen. *)
Theorem dateStr_no_hyphen :
  forall v : Voucher.t,
    containsChar "-" (dateStr v) = false /\
    (forall c : ascii, c <> "-"%char ->
       containsChar c (dateStr v) = containsChar c (Voucher.date v)) /\
    (String.length (dateStr v) <= String.length (Voucher.date v))%nat /\
    (containsChar "-" (Voucher.date v) = false -> dateStr v = Voucher.date v).
Proof.
  intros v. unfold dateStr. repeat split.
  - rewrite containsChar_removeHyphens. reflexivity.
  - intros c Hc. rewrite containsChar_removeHyphens.
    apply Ascii.eqb_neq in Hc. rewrite Hc. reflexivity.
  - apply removeHyphens_length.
  - apply removeHyphens_fixed.
Qed.

Example dateStr_V003 : dateStr salesV003 = "20240405".
Proof. reflexivity. Qed.

(** X13: the voucher number written in the export is the invoice number
    whenever one is given and is not empty, the voucher id in every other
    case, and so is never empty for a voucher whose id is not empty. *)
Theorem voucherNumber_fallback :
  forall v : Voucher.t,
    (forall s, Voucher.invoiceNumber v = Some s -> s <> "" -> voucherNumber v = s) /\
    (Voucher.invoiceNumber v = None \/ Voucher.invoiceNumber v = Some "" ->
     voucherNumber v = Voucher.id v) /\
    (Voucher.id v <> "" -> voucherNumber v <> "").
Proof.
  intros v. unfold voucherNumber, truthy. repeat split.
  - intros s -> Hs. apply String.eqb_neq in Hs. rewrite Hs. reflexivity.
  - intros [-> | ->]; reflexivity.
  - intros Hid. destruct (Voucher.invoiceNumber v) as [s |]; [|exact Hid].
    destruct (s =? "")%string eqn:E; simpl; [exact Hid|].
    apply String.eqb_neq. exact E.
Qed.

Lemma voucherNumber_fallback_witness :
  voucherNumber (Voucher.mk "V008" "2024-04-10" Sales "5" 900 "Cable" (Some "")) = "V008".
Proof.
  apply (proj1 (proj2 (voucherNumber_fallback
           (Voucher.mk "V008" "2024-04-10" Sales "5" 900 "Cable" (Some ""))))).
  right. reflexivity.
Defined.

(** The vouchers of the initial data hold no opening angle bracket, and the
    document written for them holds four opening tags. *)
Lemma exportToTally_tags_counted_witness :
  occurrences "<VOUCHER " (exportToTally INITIAL_DATA) = 4%nat.
Proof.
  apply (exportToTally_tags_counted INITIAL_DATA).
  intros v Hv. simpl in Hv.
  destruct Hv as [<- | [<- | [<- | [<- | []]]]]; reflexivity.
Defined.

Lemma deleteLedger_other_names_witness :
  ledgerName (deleteLedger "5" INITIAL_DATA)
    (Voucher.mk "V002" "2024-04-02" Purchase "6" 25000 "Purchased computer parts" (Some "INV-99"))
  = "Tech Solutions Ltd".
Proof.
  rewrite deleteLedger_other_names; [reflexivity | discriminate].
Defined.

(** X16: in the dashboard and the day book the party of a voucher is looked
    up without a fallback: after its ledger is deleted the party cell is
    empty, and the cells of the vouchers of other ledgers are unchanged. *)
Theorem partyName_deleteLedger :
  forall (id : string) (data : AppData) (v : Voucher.t),
    (Voucher.ledgerId v = id -> partyName (deleteLedger id data) v = None) /\
    (Voucher.ledgerId v <> id -> partyName (deleteLedger id data) v = partyName data v).
Proof.
  intros id data v. unfold partyName, deleteLedger; simpl. split.
  - intros ->. rewrite find_after_delete. reflexivity.
  - intros Hne. rewrite find_other_after_delete by exact Hne. reflexivity.
Qed.

Lemma partyName_deleteLedger_witness :
  partyName (deleteLedger "5" INITIAL_DATA) salesV003 = None.
Proof.
  exact (proj1 (partyName_deleteLedger "5" INITIAL_DATA salesV003) eq_refl).
Defined.

(** * The forms *)

Lemma truthy_true (s : string) : truthy s = true <-> s <> "".
Proof. unfold truthy. rewrite negb_true_iff. apply String.eqb_neq. Qed.

Lemma truthy_false (s : string) : truthy s = false <-> s = "".
Proof. unfold truthy. rewrite negb_false_iff. apply String.eqb_eq. Qed.

(** X17: the voucher form does nothing when the party or the amount text is
    empty: the form and the application data are exactly as before. *)
Theorem handleSave_incomplete :
  forall (Number : string -> Z) (gid : string) (f : VoucherForm) (data : AppData),
    f_ledgerId f = "" \/ f_amount f = "" ->
    handleSave Number gid f data = (f, data).
Proof.
  intros Number gid f data H. unfold handleSave.
  destruct H as [H | H]; apply truthy_false in H; rewrite H;
    [reflexivity | rewrite andb_false_r; reflexivity].
Qed.

Lemma handleSave_incomplete_witness :
  handleSave decimalNumber "V009"
    (mkVoucherForm Sales "" "100" "No party" "2024-04-11" "") INITIAL_DATA
  = (mkVoucherForm Sales "" "100" "No party" "2024-04-11" "", INITIAL_DATA).
Proof.
  apply handleSave_incomplete. left. reflexivity.
Defined.



(** X19: a voucher saved from the form shows at once at the end of the day
    book of the date of the form, and, when the reference field was left
    empty, is exported under its generated id. *)
Theorem handleSave_dayBook :
  forall (Number : string -> Z) (gid : string) (f : VoucherForm) (data : AppData),
    f_ledgerId f <> "" -> f_amount f <> "" ->
    dayBook (f_date f) (snd (handleSave Number gid f data)) =
      (dayBook (f_date f) data ++ [voucherOfForm Number gid f])%list /\
    (f_invoiceNo f = "" -> voucherNumber (voucherOfForm Number gid f) = gid).
Proof.
  intros Number gid f data Hl Ha. split.
  - unfold handleSave. apply truthy_true in Hl. apply truthy_true in Ha.
    rewrite Hl, Ha. unfold dayBook; simpl.
    rewrite filter_app; simpl. rewrite String.eqb_refl. reflexivity.
  - intros E. unfold voucherNumber, voucherOfForm; simpl. rewrite E. reflexivity.
Qed.

Lemma handleSave_dayBook_witness :
  dayBook "2024-04-07" (snd (handleSave decimalNumber "V005" refundForm INITIAL_DATA)) =
  [voucherOfForm decimalNumber "V005" refundForm].
Proof.
  exact (proj1 (handleSave_dayBook decimalNumber "V005" refundForm INITIAL_DATA
                  ltac:(discriminate) ltac:(discriminate))).
Defined.

(** X20: the day book of a date holds, in journal order, the vouchers of that
    date; a voucher added to the journal joins the end of the day book of its
    own date, raising the total of that day by its amount, and leaves the day
    book of every other date as it was. *)
Theorem dayBook_addVoucher :
  forall (date : string) (v : Voucher.t) (data : AppData),
    (Voucher.date v = date ->
     dayBook date (addVoucher v data) = (dayBook date data ++ [v])%list /\
     dayBookTotal date (addVoucher v data) = dayBookTotal date data + Voucher.amount v) /\
    (Voucher.date v <> date ->
     dayBook date (addVoucher v data) = dayBook date data /\
     dayBookTotal date (addVoucher v data) = dayBookTotal date data).
Proof.
  intros date v data. unfold dayBookTotal, dayBook.
  rewrite addVoucher_vouchers, filter_app. cbn [filter]. split.
  - intros <-. rewrite String.eqb_refl. split; [reflexivity|].
    unfold sumAmounts. rewrite fold_left_app. reflexivity.
  - intros Hne. apply String.eqb_neq in Hne. rewrite Hne, app_nil_r.
    split; reflexivity.
Qed.

Lemma dayBook_addVoucher_witness :
  dayBook "2024-04-07" (addVoucher refundVoucher INITIAL_DATA) = [refundVoucher].
Proof.
  exact (proj1 (proj1 (dayBook_addVoucher "2024-04-07" refundVoucher INITIAL_DATA)
                      eq_refl)).
Defined.

(** X21: the ledger form adds nothing when the name is missing or empty: the
    modal, the form and the application data stay as they were. *)
Theorem handleSubmit_without_name :
  forall (gid : string) (isModalOpen : bool) (newLedger : LedgerForm) (data : AppData),
    n_name newLedger = None \/ n_name newLedger = Some "" ->
    handleSubmit gid isModalOpen newLedger data = (isModalOpen, newLedger, data).
Proof.
  intros gid isModalOpen newLedger data [H | H]; unfold handleSubmit;
    rewrite H; reflexivity.
Qed.

Lemma handleSubmit_without_name_witness :
  handleSubmit "L9" true blankLedgerForm INITIAL_DATA =
  (true, blankLedgerForm, INITIAL_DATA).
Proof.
  apply handleSubmit_without_name. left. reflexivity.
Defined.

(** X22: a ledger form with a name closes the modal, goes back to the blank
    form and appends one ledger, whose name is not empty, whose opening
    balance is the one entered or zero when none was, and under which the
    vouchers that refer to its id are exported unless an earlier ledger
    already carries that id; submitting again right away adds nothing. *)
Theorem handleSubmit_creates :
  forall (gid gid' : string) (isModalOpen : bool) (newLedger : LedgerForm)
         (data : AppData) (text : string),
    n_name newLedger = Some text -> text <> "" ->
    handleSubmit gid isModalOpen newLedger data =
      (false, blankLedgerForm, addLedger (ledgerOfForm gid text newLedger) data) /\
    Ledger.name (ledgerOfForm gid text newLedger) <> "" /\
    Ledger.openingBalance (ledgerOfForm gid text newLedger) =
      match n_openingBalance newLedger with Some x => x | None => 0 end /\
    (forall v : Voucher.t,
        Voucher.ledgerId v = gid ->
        (forall k, In k (ledgers data) -> Ledger.id k <> gid) ->
        ledgerName (addLedger (ledgerOfForm gid text newLedger) data) v = text) /\
    handleSubmit gid' false blankLedgerForm
                 (addLedger (ledgerOfForm gid text newLedger) data) =
      (false, blankLedgerForm, addLedger (ledgerOfForm gid text newLedger) data).
Proof.
  intros gid gid' isModalOpen newLedger data text Hn Ht.
  pose proof (proj2 (truthy_true text) Ht) as Htruthy.
  repeat split.
  - unfold handleSubmit. rewrite Hn, Htruthy. reflexivity.
  - exact Ht.
  - simpl. destruct (n_openingBalance newLedger) as [x |]; [|reflexivity].
    unfold orZero. destruct (x =? 0) eqn:E; [|reflexivity].
    apply Z.eqb_eq in E. lia.
  - intros v Hv Hfresh. unfold ledgerName, addLedger, setLedgers.
    cbn [ledgers]. rewrite find_app_ledgers.
    assert (E : find (fun l => (Ledger.id l =? Voucher.ledgerId v)%string)
                     (ledgers data) = None).
    { rewrite Hv. induction (ledgers data) as [| k ks IH]; [reflexivity|]. simpl.
      destruct (Ledger.id k =? gid)%string eqn:G.
      - apply String.eqb_eq in G. exfalso.
        apply (Hfresh k (or_introl eq_refl)). exact G.
      - apply IH. intros m Hm. apply Hfresh. right. exact Hm. }
    rewrite E. cbn [find Ledger.id Ledger.name ledgerOfForm].
    rewrite Hv, String.eqb_refl. cbn [Ledger.name ledgerOfForm].
    rewrite Htruthy. reflexivity.
Qed.

Lemma handleSubmit_creates_witness :
  handleSubmit "L9" true
    (mkLedgerForm (Some "Stationery") Expense None None None) INITIAL_DATA =
  (false, blankLedgerForm,
   addLedger (Ledger.mk "L9" "Stationery" Expense None 0 None) INITIAL_DATA).
Proof.
  exact (proj1 (handleSubmit_creates "L9" "L10" true
                  (mkLedgerForm (Some "Stationery") Expense None None None)
                  INITIAL_DATA "Stationery" eq_refl ltac:(discriminate))).
Defined.

(** * Dashboard *)

(** X23: the dashboard lists the five most recent vouchers, newest first: the
    list is the first five entries of the journal read backwards, has the
    length of the journal when the journal is shorter than five, and starts
    with a voucher as soon as that voucher is added. *)
Theorem recentVouchers_newest_first :
  forall data : AppData,
    recentVouchers data = firstn 5 (rev (vouchers data)) /\
    List.length (recentVouchers data) = Nat.min 5 (List.length (vouchers data)) /\
    (forall v : Voucher.t, hd_error (recentVouchers (addVoucher v data)) = Some v).
Proof.
  intros data.
  assert (E : forall d, recentVouchers d = firstn 5 (rev (vouchers d))).
  { intros d. unfold recentVouchers. symmetry. apply firstn_rev. }
  repeat split.
  - apply E.
  - rewrite E, length_firstn, length_rev. reflexivity.
  - intros v. rewrite E, addVoucher_vouchers, rev_app_distr. reflexivity.
Qed.

(** * Invoice *)

Lemma fold_left_items (xs : list Item) :
  forall a : Z,
    fold_left (fun s i => s + qty i * rate i) xs a =
    a + fold_left (fun s i => s + qty i * rate i) xs 0.
Proof.
  induction xs as [| x xs IH]; intros a; simpl; [lia|].
  rewrite (IH (a + qty x * rate x)), (IH (qty x * rate x)). lia.
Qed.

Lemma fold_left_items_app (xs ys : list Item) :
  fold_left (fun s i => s + qty i * rate i) (xs ++ ys) 0 =
  fold_left (fun s i => s + qty i * rate i) xs 0 +
  fold_left (fun s i => s + qty i * rate i) ys 0.
Proof. rewrite fold_left_app. apply fold_left_items. Qed.

Lemma InvoiceData_eta (invoiceData : InvoiceData) :
  setItems (items invoiceData) invoiceData = invoiceData.
Proof. destruct invoiceData; reflexivity. Qed.

Lemma splice_last (xs : list Item) (x : Item) :
  (firstn (List.length xs) (xs ++ [x]) ++ skipn (S (List.length xs)) (xs ++ [x]))%list = xs.
Proof.
  induction xs as [| y xs IH]; [reflexivity|].
  simpl. f_equal. exact IH.
Qed.

(** X24: adding a line to the invoice appends one item of quantity 1 and
    rate 0 and leaves the subtotal unchanged; removing that last line again
    gives back the invoice as it was. *)
Theorem addItem_keeps_subtotal :
  forall invoiceData : InvoiceData,
    subtotal (addItem invoiceData) = subtotal invoiceData /\
    List.length (items (addItem invoiceData)) = S (List.length (items invoiceData)) /\
    removeItem (List.length (items invoiceData)) (addItem invoiceData) = invoiceData.
Proof.
  intros invoiceData. repeat split.
  - unfold subtotal, addItem; simpl. rewrite fold_left_items_app. simpl. lia.
  - unfold addItem; simpl. rewrite length_app. simpl. lia.
  - destruct invoiceData as [cn ca g no its d].
    unfold removeItem, addItem, setItems.
    cbn [items customerName customerAddress gst invoiceNo i_date].
    rewrite splice_last. reflexivity.
Qed.

Lemma items_remove_total (index : nat) :
  forall (xs : list Item) (it : Item),
    nth_error xs index = Some it ->
    fold_left (fun s i => s + qty i * rate i) (firstn index xs ++ skipn (S index) xs) 0 =
    fold_left (fun s i => s + qty i * rate i) xs 0 - qty it * rate it /\
    S (List.length (firstn index xs ++ skipn (S index) xs)) = List.length xs.
Proof.
  induction index as [| index IH]; intros [| x xs] it H; try discriminate H.
  - injection H as ->. cbn [firstn skipn app fold_left List.length].
    rewrite (fold_left_items xs (0 + qty it * rate it)). split; [lia | reflexivity].
  - cbn [nth_error] in H. destruct (IH xs it H) as [Ht Hl].
    change (firstn (S index) (x :: xs) ++ skipn (S (S index)) (x :: xs))%list
      with (x :: (firstn index xs ++ skipn (S index) xs))%list.
    cbn [fold_left List.length].
    rewrite (fold_left_items _ (0 + qty x * rate x)),
            (fold_left_items xs (0 + qty x * rate x)).
    split; [lia | rewrite Hl; reflexivity].
Qed.

Lemma itemsMagnitude_remove (index : nat) :
  forall xs : list Item,
    itemsMagnitude (firstn index xs ++ skipn (S index) xs) <= itemsMagnitude xs.
Proof.
  induction index as [| index IH]; intros [| x xs].
  - simpl. lia.
  - cbn [firstn skipn app itemsMagnitude]. lia.
  - simpl. lia.
  - change (firstn (S index) (x :: xs) ++ skipn (S (S index)) (x :: xs))%list
      with (x :: (firstn index xs ++ skipn (S index) xs))%list.
    cbn [itemsMagnitude]. specialize (IH xs). lia.
Qed.

(** X25: within the range of exact arithmetic (integer quantities and rates,
    the magnitudes of the line amounts adding up to at most 2^53), removing
    the line shown at an index takes exactly that item out of the invoice:
    the list is one shorter, the subtotal drops by the quantity times the
    rate of the item, and the invoice stays within the range. *)
Theorem removeItem_subtotal :
  forall (index : nat) (invoiceData : InvoiceData) (it : Item),
    nth_error (items invoiceData) index = Some it ->
    invoiceWithinExactRange invoiceData = true ->
    subtotal (removeItem index invoiceData) = subtotal invoiceData - qty it * rate it /\
    S (List.length (items (removeItem index invoiceData))) =
      List.length (items invoiceData) /\
    invoiceWithinExactRange (removeItem index invoiceData) = true.
Proof.
  intros index invoiceData it H Hrange.
  destruct (items_remove_total index (items invoiceData) it H) as [Ht Hl].
  unfold subtotal, removeItem, invoiceWithinExactRange in *; cbn [items setItems].
  split; [exact Ht|]. split; [exact Hl|].
  apply Z.leb_le in Hrange. apply Z.leb_le.
  pose proof (itemsMagnitude_remove index (items invoiceData)). lia.
Qed.

Lemma removeItem_subtotal_witness :
  subtotal (removeItem 0
    (mkInvoiceData "" "" "" "INV-7"
       [mkItem "Dell Inspiron 15 Laptop" "8471" 1 45000;
        mkItem "Logitech Wireless Mouse" "8471" 2 650] "2024-04-12")) =
  46300 - 1 * 45000.
Proof.
  exact (proj1 (removeItem_subtotal 0
    (mkInvoiceData "" "" "" "INV-7"
       [mkItem "Dell Inspiron 15 Laptop" "8471" 1 45000;
        mkItem "Logitech Wireless Mouse" "8471" 2 650] "2024-04-12")
    (mkItem "Dell Inspiron 15 Laptop" "8471" 1 45000) eq_refl eq_refl)).
Defined.

(** X26: removing at an index at or beyond the end of the list changes
    nothing. *)
Theorem removeItem_beyond_end :
  forall (index : nat) (invoiceData : InvoiceData),
    (List.length (items invoiceData) <= index)%nat ->
    removeItem index invoiceData = invoiceData.
Proof.
  intros index invoiceData H. unfold removeItem.
  rewrite firstn_all2 by exact H.
  rewrite skipn_all2 by lia.
  rewrite app_nil_r. apply InvoiceData_eta.
Qed.

Lemma removeItem_beyond_end_witness :
  removeItem 3 (mkInvoiceData "" "" "" "INV-7" [mkItem "Cable" "8544" 2 150] "2024-04-12")
  = mkInvoiceData "" "" "" "INV-7" [mkItem "Cable" "8544" 2 150] "2024-04-12".
Proof.
  apply removeItem_beyond_end. simpl. lia.
Defined.

(** * Company settings, backup and restore *)

Lemma exportToTally_stores (data data' : AppData) :
  ledgers data' = ledgers data -> vouchers data' = vouchers data ->
  exportToTally data' = exportToTally data.
Proof.
  intros Hl Hv. unfold exportToTally, voucherText, partyEntry, ledgerName.
  rewrite Hl, Hv. reflexivity.
Qed.

(** X27: a settings update that carries neither ledgers nor vouchers, as all
    the updates sent by the company profile do, leaves both stores as they
    were, and with them the trial balance, the cash in hand and the exported
    document. *)
Theorem updateCompanySettings_frame :
  forall (settings : AppDataPatch) (data : AppData),
    p_ledgers settings = None -> p_vouchers settings = None ->
    ledgers (updateCompanySettings settings data) = ledgers data /\
    vouchers (updateCompanySettings settings data) = vouchers data /\
    trialBalance (updateCompanySettings settings data) = trialBalance data /\
    cashBalance (updateCompanySettings settings data) = cashBalance data /\
    exportToTally (updateCompanySettings settings data) = exportToTally data.
Proof.
  intros settings data Hl Hv.
  assert (El : ledgers (updateCompanySettings settings data) = ledgers data).
  { unfold updateCompanySettings; simpl. rewrite Hl. reflexivity. }
  assert (Ev : vouchers (updateCompanySettings settings data) = vouchers data).
  { unfold updateCompanySettings; simpl. rewrite Hv. reflexivity. }
  split; [exact El|]. split; [exact Ev|]. split; [|split].
  - unfold trialBalance. rewrite El, Ev. reflexivity.
  - unfold cashBalance, cashLedger, totalReceipts, totalPayments.
    rewrite El, Ev. reflexivity.
  - apply exportToTally_stores; assumption.
Qed.

Lemma updateCompanySettings_frame_witness :
  exportToTally (updateCompanySettings (companyNamePatch "NAC Traders") INITIAL_DATA) =
  exportToTally INITIAL_DATA.
Proof.
  exact (proj2 (proj2 (proj2 (proj2
    (updateCompanySettings_frame (companyNamePatch "NAC Traders") INITIAL_DATA
       eq_refl eq_refl))))).
Defined.

(** X28: the validation of a backup looks at three fields only.  The backup
    of the current data is refused as invalid exactly when the company name
    is empty, whatever the ledgers and vouchers are, so the data saved after
    the company name has been cleared in the settings cannot be restored;
    with a company name, it is restored as it is when the warning is
    confirmed and left aside when it is not, an empty journal or registry
    being no obstacle. *)
Theorem handleRestore_backup :
  forall (data : AppData) (confirmed : bool),
    (companyName data = "" ->
     handleRestore (backupJson data) confirmed = InvalidBackupFile) /\
    (companyName data <> "" ->
     handleRestore (backupJson data) confirmed =
       if confirmed then DataRestored (backupJson data) else RestoreDeclined) /\
    handleRestore
      (backupJson (updateCompanySettings (companyNamePatch "") data)) confirmed
      = InvalidBackupFile /\
    (companyName data <> "" ->
     handleRestore (backupJson (setVouchers [] (setLedgers [] data))) true =
       DataRestored (backupJson (setVouchers [] (setLedgers [] data)))).
Proof.
  intros data confirmed. unfold handleRestore, simpleValidationCheck. repeat split.
  - intros H. simpl. apply truthy_false in H. rewrite H. reflexivity.
  - intros H. simpl. apply truthy_true in H. rewrite H. reflexivity.
  - intros H. simpl. apply truthy_true in H. rewrite H. reflexivity.
Qed.

Lemma handleRestore_backup_witness :
  handleRestore (backupJson INITIAL_DATA) true = DataRestored (backupJson INITIAL_DATA).
Proof.
  exact (proj1 (proj2 (handleRestore_backup INITIAL_DATA true)) ltac:(discriminate)).
Defined.

(** * Licence keys *)

Lemma split_plain (s : string) :
  containsChar "-" s = false -> split "-" s = [s].
Proof.
  induction s as [| c s IH]; simpl; intros H; [reflexivity|].
  apply orb_false_iff in H. destruct H as [Hc Hs].
  rewrite Hc, (IH Hs). reflexivity.
Qed.

Lemma split_first (a b : string) :
  containsChar "-" a = false ->
  split "-" (a ++ String "-" b) = a :: split "-" b.
Proof.
  induction a as [| c a IH]; simpl; intros H; [reflexivity|].
  apply orb_false_iff in H. destruct H as [Hc Ha].
  rewrite Hc, (IH Ha). reflexivity.
Qed.

Lemma startsWith_append (tag rest : string) : startsWith tag (tag ++ rest) = true.
Proof.
  induction tag as [| c tag IH]; simpl; [reflexivity|].
  rewrite Ascii.eqb_refl. exact IH.
Qed.

Lemma split_generateKey (datePart randomPart : string) :
  containsChar "-" datePart = false -> containsChar "-" randomPart = false ->
  split "-" (generateKey "1Y" datePart randomPart) = ["NAC"; "1Y"; datePart; randomPart].
Proof.
  intros Hd Hr. unfold generateKey.
  change ("NAC-" ++ "1Y" ++ "-" ++ datePart ++ "-" ++ randomPart)
    with ("NAC" ++ String "-" ("1Y" ++ String "-" (datePart ++ String "-" randomPart))).
  rewrite (split_first "NAC") by reflexivity.
  rewrite (split_first "1Y") by reflexivity.
  rewrite (split_first datePart) by exact Hd.
  rewrite (split_plain randomPart) by exact Hr.
  reflexivity.
Qed.

Section ActivationProperties.

Variables today inOneMonth inOneYear : string.

Lemma handleActivate_accepts (licenseKey : string) :
  startsWith "NAC-" licenseKey = true ->
  exists license : License.t,
    handleActivate today inOneMonth inOneYear licenseKey = Activated license /\
    License.key license = licenseKey /\
    License.isActive license = true /\
    License.activationDate license = today /\
    (License.expiryDate license = inOneMonth \/
     License.expiryDate license = inOneYear).
Proof.
  intros H. unfold handleActivate.
  destruct (licenseKey =? "NAC-DEMO-2025-TEST")%string.
  - eexists. split; [reflexivity|]. simpl. auto.
  - rewrite H. cbn [negb].
    destruct (existsb _ (split "-" licenseKey));
      eexists; (split; [reflexivity|]); simpl; auto.
Qed.

(** X29: the activation accepts every key that starts with "NAC-", without
    looking at its date or random part, and refuses every other text with the
    format error; an accepted key is stored as an active licence under that
    very key, starting today. *)
Theorem handleActivate_prefix :
  forall licenseKey : string,
    (startsWith "NAC-" licenseKey = false ->
     handleActivate today inOneMonth inOneYear licenseKey =
       Refused "Invalid License Format. Must start with NAC-") /\
    (startsWith "NAC-" licenseKey = true ->
     exists license : License.t,
       handleActivate today inOneMonth inOneYear licenseKey = Activated license /\
       License.key license = licenseKey /\
       License.isActive license = true /\
       License.activationDate license = today /\
       (License.expiryDate license = inOneMonth \/
        License.expiryDate license = inOneYear)).
Proof.
  intros licenseKey. split; intros H.
  - unfold handleActivate.
    destruct (licenseKey =? "NAC-DEMO-2025-TEST")%string eqn:E.
    + apply String.eqb_eq in E. subst licenseKey. discriminate H.
    + rewrite H. reflexivity.
  - apply handleActivate_accepts. exact H.
Qed.

(** X30: every key produced by the generator is accepted by the activation.
    A key generated for the duration "1M" expires in one month.  A key
    generated for the duration "1Y" expires in one year, provided its date
    part and its random part hold no hyphen and neither is the text "1M"; if
    the random part is "1M" the key expires in one month. *)
Theorem generateKey_activates :
  forall datePart randomPart : string,
    (forall duration : string,
        exists license : License.t,
          handleActivate today inOneMonth inOneYear
            (generateKey duration datePart randomPart) = Activated license) /\
    (exists license : License.t,
        handleActivate today inOneMonth inOneYear
          (generateKey "1M" datePart randomPart) = Activated license /\
        License.expiryDate license = inOneMonth) /\
    (containsChar "-" datePart = false -> containsChar "-" randomPart = false ->
     datePart <> "1M" -> randomPart <> "1M" ->
     exists license : License.t,
       handleActivate today inOneMonth inOneYear
         (generateKey "1Y" datePart randomPart) = Activated license /\
       License.expiryDate license = inOneYear) /\
    (containsChar "-" datePart = false -> randomPart = "1M" ->
     exists license : License.t,
       handleActivate today inOneMonth inOneYear
         (generateKey "1Y" datePart randomPart) = Activated license /\
       License.expiryDate license = inOneMonth).
Proof.
  intros datePart randomPart. repeat split.
  - intros duration.
    destruct (handleActivate_accepts (generateKey duration datePart randomPart)
                (startsWith_append "NAC-" _)) as [license [E _]].
    exists license. exact E.
  - unfold handleActivate, generateKey. simpl.
    eexists. split; reflexivity.
  - intros Hd Hr Hd1 Hr1. unfold handleActivate.
    change (generateKey "1Y" datePart randomPart =? "NAC-DEMO-2025-TEST")%string
      with false.
    change (startsWith "NAC-" (generateKey "1Y" datePart randomPart)) with true.
    cbv zeta. cbn [negb]. rewrite (split_generateKey datePart randomPart Hd Hr).
    apply String.eqb_neq in Hd1. apply String.eqb_neq in Hr1.
    cbn [existsb]. rewrite Hd1, Hr1.
    eexists. split; reflexivity.
  - intros Hd ->. unfold handleActivate.
    change (generateKey "1Y" datePart "1M" =? "NAC-DEMO-2025-TEST")%string
      with false.
    change (startsWith "NAC-" (generateKey "1Y" datePart "1M")) with true.
    cbv zeta. cbn [negb].
    rewrite (split_generateKey datePart "1M" Hd eq_refl).
    cbn [existsb]. rewrite (String.eqb_refl "1M"), !orb_true_r.
    eexists. split; reflexivity.
Qed.

End ActivationProperties.

Lemma generateKey_activates_witness :
  exists license : License.t,
    handleActivate "2024-05-20" "2024-06-20" "2025-05-20"
      (generateKey "1Y" "20240520" "ABCD") = Activated license /\
    License.expiryDate license = "2025-05-20".
Proof.
  apply (proj1 (proj2 (proj2
    (generateKey_activates "2024-05-20" "2024-06-20" "2025-05-20" "20240520" "ABCD"))));
    [reflexivity | reflexivity | discriminate | discriminate].
Defined.

Lemma handleActivate_prefix_witness :
  handleActivate "2024-05-20" "2024-06-20" "2025-05-20" "XYZ-1Y-20240520-ABCD" =
  Refused "Invalid License Format. Must start with NAC-".
Proof.
  exact (proj1 (handleActivate_prefix "2024-05-20" "2024-06-20" "2025-05-20"
                  "XYZ-1Y-20240520-ABCD") eq_refl).
Defined.

(** * The voucher blocks of the exported text *)








